(** * VoiceRecorder: a shallow embedding of [voice_recorder.py]

    The module under study is one Python class, [VoiceRecorder], with a
    constructor, two validators and one blocking operation, followed by a
    three-line script that uses it.  The class itself contains very little
    logic; what it does is decided by the order in which it calls into the
    Python runtime ([str.lower], [int], [os.makedirs], [os.path.join],
    [time.time], [print]) and into the two audio libraries ([sounddevice.rec],
    [sounddevice.wait], [soundfile.write]).

    The development is organised accordingly:

    - [Py]      values, exceptions and the pure built-ins the class uses;
    - [Host]    the machine the program runs on: file system, clock, default
                input device, the arrays handed out by [sounddevice], and the
                trace of calls made so far;
    - [VoiceRecorder]  the class, method by method, in a state-and-exception
                monad over (object, host);
    - the properties of the class. *)

From Stdlib Require Import ZArith Ascii Bool Lia.
From Stdlib Require Import Floats.SpecFloat.
From stdpp Require Import gmap strings list pretty.

Local Open Scope Z_scope.

(* ===================================================================== *)
(** * Python values and built-ins *)
(* ===================================================================== *)

Module Py.

(** ** Exceptions

    Only the classes that the calls made by [voice_recorder.py] can raise are
    listed.  The first four are subclasses of [OSError]; none of them is a
    subclass of another one of the list, so an [except] clause naming some of
    them catches exactly the ones it names. *)

Inductive exn_class :=
  | FileNotFoundError
  | PermissionError
  | FileExistsError
  | NotADirectoryError
  | ValueError
  | TypeError
  | OverflowError
  | PortAudioError
  | LibsndfileError.

#[global] Instance exn_class_eq_dec : EqDecision exn_class.
Proof. solve_decision. Defined.

(** An exception instance: its class and [str(error)]. *)
Record exn := Exn { exn_cls : exn_class; exn_str : string }.

(** The result of running a piece of Python: a value, or an exception on its
    way up the call stack. *)
Inductive outcome (A : Type) :=
  | Returned (a : A)
  | Raised (e : exn).
Arguments Returned {A} a.
Arguments Raised {A} e.

Definition returns {A} (o : outcome A) : bool :=
  match o with Returned _ => true | Raised _ => false end.

(** ** Numbers

    [duration] is documented as an [int] but nothing restricts it; the two
    built-in real number types are modelled.  A [float] is an IEEE 754
    binary64 value, taken from the standard library's specification of
    floating-point numbers. *)

Definition prec : Z := 53.
Definition emax : Z := 1024.

Inductive number :=
  | PyInt (n : Z)
  | PyFloat (x : spec_float).

(** [float(n)] for an [int] that converts exactly, such as 44100. *)
Definition float_of_int (n : Z) : spec_float :=
  binary_normalize prec emax n 0 false.

(** [a * n] for a number [a] and an [int] [n]: exact on [int], the correctly
    rounded IEEE product on [float] after converting [n]. *)
Definition mul_int (a : number) (n : Z) : number :=
  match a with
  | PyInt d => PyInt (d * n)
  | PyFloat x => PyFloat (SFmul prec emax x (float_of_int n))
  end.

(** The integral part of a finite binary float [(-1)^s * m * 2^e]. *)
Definition trunc_finite (s : bool) (m : positive) (e : Z) : Z :=
  let a := if 0 <=? e then Z.shiftl (Zpos m) e else Z.shiftr (Zpos m) (- e) in
  if s then - a else a.

(** [int(a)]: the identity on [int]; on [float], truncation toward zero, and
    an exception for the two kinds of value that have no integral part. *)
Definition int (a : number) : outcome Z :=
  match a with
  | PyInt n => Returned n
  | PyFloat S754_nan =>
      Raised (Exn ValueError "cannot convert float NaN to integer")
  | PyFloat (S754_infinity _) =>
      Raised (Exn OverflowError "cannot convert float infinity to integer")
  | PyFloat (S754_zero _) => Returned 0
  | PyFloat (S754_finite s m e) => Returned (trunc_finite s m e)
  end.

(** [str(n)] for an [int], as used by an f-string field. *)
Definition str_of_int (n : Z) : string := pretty n.

(** ** Strings

    A [str] is a sequence of code points; the model covers the code points
    below 256 (Latin-1), one per [ascii].  On that range [str.lower] acts
    character by character: the upper-case letters are A-Z, À-Ö and Ø-Þ, and
    each has its lower-case partner 32 places further. *)

Definition is_upper (c : ascii) : bool :=
  let n := N_of_ascii c in
  ((65 <=? n) && (n <=? 90) || (192 <=? n) && (n <=? 214)
   || (216 <=? n) && (n <=? 222))%N.

Definition lower_char (c : ascii) : ascii :=
  if is_upper c then ascii_of_N (N_of_ascii c + 32) else c.

Fixpoint lower (s : string) : string :=
  match s with
  | EmptyString => EmptyString
  | String c s' => String (lower_char c) (lower s')
  end.

Definition startswith (s p : string) : bool := String.prefix p s.

Fixpoint endswith (s p : string) : bool :=
  String.eqb s p ||
  match s with
  | EmptyString => false
  | String _ s' => endswith s' p
  end.

(** ** [os.path.join(a, b)] on a POSIX system (posixpath.join with two
    arguments): an absolute [b] replaces [a]; otherwise [b] is appended,
    after a separator unless [a] is empty or already ends with one. *)

Definition sep : string := "/".

Definition path_join (a b : string) : string :=
  if startswith b sep then b
  else if String.eqb a "" || endswith a sep then a +:+ b
  else a +:+ sep +:+ b.

End Py.

(* ===================================================================== *)
(** * The host: file system, clock, input device, call trace *)
(* ===================================================================== *)

Module Host.
Import Py.

(** ** Audio data

    A [numpy] array of shape (frames, channels) is a list of rows.
    [sounddevice.rec] hands the array out before anything has been captured
    ([numpy.empty] leaves the cells uninitialised), and the capture fills it
    while the caller does something else, so a cell is [None] until a sample
    has been stored in it. *)

Definition sample := Z.
Definition ndarray := list (list (option sample)).

Definition n_frames (a : ndarray) : Z := Z.of_nat (length a).
Definition mono (a : ndarray) : Prop := Forall (fun row => length row = 1%nat) a.
Definition captured (a : ndarray) : Prop :=
  Forall (fun row => Forall (fun cell => is_Some cell) row) a.

(** What an audio file holds, as far as this development looks into it: the
    container named by its extension, the sample rate, and the frames given to
    the encoder. *)
Record audio := Audio {
  au_format : string;
  au_rate : Z;
  au_data : ndarray
}.

(** ** File system

    A tree without symbolic links: a finite map from absolute paths, as lists
    of components from the root, to nodes.  A directory is writable or not for
    the user running the program; a file holds audio or something else. *)

Inductive node :=
  | Dir (writable : bool)
  | File (content : option audio).

Definition path := list string.

(** ** Calls made to the outside, in the order they were made *)

Inductive event :=
  | Print (line : string)
  | Makedirs (name : string)
  | Rec (frames samplerate channels : Z)
  | Wait
  | Time
  | Write (file : string) (array : nat) (samplerate : Z).

#[global] Instance event_eq_dec : EqDecision event.
Proof. solve_decision. Defined.

(** An input stream opened by [sounddevice.rec] and still running. *)
Record stream := Stream {
  st_array : nat;
  st_frames : nat;
  st_channels : nat;
  st_rate : Z;
  st_signal : nat -> nat -> sample
}.

Record host := Host {
  fs : gmap (list string) node;
  cwd : path;
  clock : Z;                              (* nanoseconds since the epoch *)
  mic : option (nat -> nat -> sample);    (* default input device, if any:
                                             frame -> channel -> amplitude *)
  arrays : list ndarray;                  (* arrays allocated so far *)
  active : option stream;
  trace : list event
}.

Definition set_fs (f : gmap (list string) node) (h : host) : host :=
  Host f (cwd h) (clock h) (mic h) (arrays h) (active h) (trace h).
Definition set_clock (t : Z) (h : host) : host :=
  Host (fs h) (cwd h) t (mic h) (arrays h) (active h) (trace h).
Definition set_arrays (a : list ndarray) (h : host) : host :=
  Host (fs h) (cwd h) (clock h) (mic h) a (active h) (trace h).
Definition set_active (s : option stream) (h : host) : host :=
  Host (fs h) (cwd h) (clock h) (mic h) (arrays h) s (trace h).
Definition log (e : event) (h : host) : host :=
  Host (fs h) (cwd h) (clock h) (mic h) (arrays h) (active h) (trace h ++ [e]).

(** ** Path names

    A path name is a sequence of components separated by [/]; empty
    components do not count.  A name starting with a separator is looked up
    from the root, any other from the working directory.  Looking a name up
    walks the tree one component at a time: [.] stays, [..] goes to the
    parent, anything else to the child of that name, and every node passed on
    the way must be a directory. *)

Fixpoint split_sep (s : string) (cur : string) : list string :=
  match s with
  | EmptyString => [cur]
  | String c s' =>
      if Ascii.eqb c "/"%char then cur :: split_sep s' ""
      else split_sep s' (cur +:+ String c "")
  end.

Definition components (name : string) : list string :=
  List.filter (fun c => negb (String.eqb c "")) (split_sep name "").

Definition base (h : host) (name : string) : path :=
  if startswith name sep then [] else cwd h.

Inductive lookup :=
  | Found (p : path) (n : node)
  | NoEntry
  | NotDir.

Definition move (cur : path) (c : string) : path :=
  if String.eqb c "." then cur
  else if String.eqb c ".." then removelast cur
  else cur ++ [c].

Fixpoint walk (f : gmap (list string) node) (cur : path)
    (comps : list string) {struct comps} : lookup :=
  match comps with
  | [] => match f !! cur with Some n => Found cur n | None => NoEntry end
  | c :: rest =>
      match f !! cur with
      | None => NoEntry
      | Some (File _) => NotDir
      | Some (Dir _) => walk f (move cur c) rest
      end
  end.

(** [os.path.exists] and [os.path.isdir] *)
Definition exists_ (f : gmap (list string) node) (b : path)
    (comps : list string) : bool :=
  match walk f b comps with Found _ _ => true | _ => false end.

Definition isdir (f : gmap (list string) node) (b : path)
    (comps : list string) : bool :=
  match walk f b comps with Found _ (Dir _) => true | _ => false end.

Fixpoint has_nul (s : string) : bool :=
  match s with
  | EmptyString => false
  | String c s' => Ascii.eqb c zero || has_nul s'
  end.

Definition os_error (c : exn_class) (what name : string) : exn :=
  Exn c (what +:+ ": '" +:+ name +:+ "'").

Definition ENOENT := os_error FileNotFoundError "[Errno 2] No such file or directory".
Definition EACCES := os_error PermissionError "[Errno 13] Permission denied".
Definition EEXIST := os_error FileExistsError "[Errno 17] File exists".
Definition ENOTDIR := os_error NotADirectoryError "[Errno 20] Not a directory".

Definition is_dot (c : string) : bool := String.eqb c "." || String.eqb c "..".

(** A name with a NUL character in it never reaches the system: the call
    that is handed the name raises [ValueError], and [os.path.exists] and
    [os.path.isdir], which swallow that exception, answer [False]. *)
Definition has_nul_in (comps : list string) : bool := existsb has_nul comps.

Definition path_exists (f : gmap (list string) node) (b : path)
    (comps : list string) : bool :=
  negb (has_nul_in comps) && exists_ f b comps.

Definition path_isdir (f : gmap (list string) node) (b : path)
    (comps : list string) : bool :=
  negb (has_nul_in comps) && isdir f b comps.

(** The subclasses of [OSError] among the exceptions. *)
Definition is_os_error (e : exn) : bool :=
  bool_decide (exn_cls e ∈ [FileNotFoundError; PermissionError;
                            FileExistsError; NotADirectoryError]).

Definition embedded_nul : exn := Exn ValueError "embedded null byte".

(** ** [print] *)

Definition print (line : string) (h : host) : outcome unit * host :=
  (Returned tt, log (Print line) h).

(** ** [os.mkdir] and [os.makedirs(name, exist_ok=True)]

    [mkdir] looks up the directory that is to hold the new entry and adds the
    entry to it.  [name] is only used for the text of the exception, which
    here always quotes the name given to [makedirs], also when the entry that
    could not be created is one of its ancestors. *)

Definition mkdir (name : string) (b : path) (comps : list string)
    (f : gmap (list string) node) : outcome unit * gmap (list string) node :=
  if has_nul_in comps then (Raised embedded_nul, f)
  else
    match walk f b (removelast comps) with
    | NoEntry => (Raised (ENOENT name), f)
    | NotDir | Found _ (File _) => (Raised (ENOTDIR name), f)
    | Found d (Dir writable) =>
        let leaf := List.last comps "." in
        if is_dot leaf then (Raised (EEXIST name), f)
        else
          match f !! (d ++ [leaf]) with
          | Some _ => (Raised (EEXIST name), f)
          | None =>
              if writable then (Returned tt, <[d ++ [leaf] := Dir true]> f)
              else (Raised (EACCES name), f)
          end
    end.

(** With [exist_ok=True] an [OSError] from creating the leaf is forgiven
    when the leaf is a directory already. *)
Definition mkdir_exist_ok (name : string) (b : path) (comps : list string)
    (f : gmap (list string) node) : outcome unit * gmap (list string) node :=
  match mkdir name b comps f with
  | (Raised e, f') =>
      if is_os_error e && path_isdir f' b comps then (Returned tt, f')
      else (Raised e, f')
  | r => r
  end.

(** The library function first makes sure the parent exists, calling itself
    on it and ignoring a [FileExistsError] from there, then creates the leaf -
    unless the leaf is [.], which exists as soon as the parent does.  The
    components are taken last one first. *)
Fixpoint makedirs_rev (name : string) (b : path) (rc : list string)
    (f : gmap (list string) node) : outcome unit * gmap (list string) node :=
  match rc with
  | [] => mkdir_exist_ok name b (rev rc) f
  | tail :: rhead =>
      if path_exists f b (rev rhead) then mkdir_exist_ok name b (rev rc) f
      else
        let after_head f1 :=
          if String.eqb tail "." then (Returned tt, f1)
          else mkdir_exist_ok name b (rev rc) f1 in
        match makedirs_rev name b rhead f with
        | (Raised e, f1) =>
            if decide (exn_cls e = FileExistsError) then after_head f1
            else (Raised e, f1)
        | (Returned _, f1) => after_head f1
        end
  end.

Definition makedirs (name : string) (h : host) : outcome unit * host :=
  let h := log (Makedirs name) h in
  if String.eqb name "" then (Raised (ENOENT name), h)
  else
    let '(r, f) :=
      makedirs_rev name (base h name) (rev (components name)) (fs h) in
    (r, set_fs f h).

(** ** [time.time]

    The call returns a [float] number of seconds; the model keeps the clock in
    nanoseconds and [int(time.time())] is its number of whole seconds,
    truncated toward zero like every [int] of a [float]. *)

Definition time_time (h : host) : outcome Z * host :=
  (Returned (clock h), log Time h).

Definition whole_seconds (t : Z) : Z := Z.quot t 1000000000.

(** ** [sounddevice.rec(frames, samplerate=, channels=)] and
    [sounddevice.wait()]

    [rec] does not block: it allocates the array, opens a stream on the
    default input device that will fill it, and returns the array.  A negative
    number of frames is refused by [numpy.empty]; a host without input device
    makes the stream fail to open. *)

Definition empty_array (frames channels : nat) : ndarray :=
  replicate frames (replicate channels None).

Definition sd_rec (frames samplerate channels : Z) (h : host)
  : outcome nat * host :=
  let h := log (Rec frames samplerate channels) h in
  if frames <? 0 then
    (Raised (Exn ValueError "negative dimensions are not allowed"), h)
  else
    match mic h with
    | None => (Raised (Exn PortAudioError "Error querying device -1"), h)
    | Some signal =>
        let id := length (arrays h) in
        let a := empty_array (Z.to_nat frames) (Z.to_nat channels) in
        let st := Stream id (Z.to_nat frames) (Z.to_nat channels)
                         samplerate signal in
        (Returned id,
         set_active (Some st) (set_arrays (arrays h ++ [a]) h))
    end.

(** [wait] blocks until the running stream has delivered all its frames: the
    array is full and the clock has advanced by the time it takes to play
    that many frames at the stream's rate. *)

Definition filled_array (st : stream) : ndarray :=
  map (fun i => map (fun c => Some (st_signal st i c)) (seq 0 (st_channels st)))
      (seq 0 (st_frames st)).

Definition capture_time (frames samplerate : Z) : Z :=
  frames * 1000000000 / samplerate.

Definition sd_wait (h : host) : outcome unit * host :=
  let h := log Wait h in
  match active h with
  | None => (Returned tt, h)
  | Some st =>
      let h1 := set_arrays (<[st_array st := filled_array st]> (arrays h)) h in
      let h2 := set_clock (clock h + capture_time (Z.of_nat (st_frames st))
                                                  (st_rate st)) h1 in
      (Returned tt, set_active None h2)
  end.

(** ** [soundfile.write(file, data, samplerate)]

    The container is chosen from the extension of the file name, which must
    be one the library knows; the file is then created (or replaced) in its
    directory, which must exist and, for a new file, be writable. *)

Definition basename (name : string) : string :=
  List.last (split_sep name "") "".

Fixpoint split_dot (s : string) (cur : string) : list string :=
  match s with
  | EmptyString => [cur]
  | String c s' =>
      if Ascii.eqb c "."%char then cur :: split_dot s' ""
      else split_dot s' (cur +:+ String c "")
  end.

(** [os.path.splitext(name)[1][1:]]: what follows the last dot of the last
    component, leading dots not counting. *)
Definition extension (name : string) : string :=
  let parts := split_dot (basename name) "" in
  if forallb (fun p => String.eqb p "") (removelast parts) then ""
  else List.last parts "".

Definition sf_formats : list string :=
  ["wav"; "aiff"; "au"; "raw"; "paf"; "svx"; "nist"; "voc"; "ircam"; "w64";
   "mat4"; "mat5"; "pvf"; "xi"; "htk"; "sds"; "avr"; "wavex"; "sd2"; "flac";
   "caf"; "wve"; "ogg"; "mpc2k"; "rf64"; "mp3"].

Definition open_error (file : string) : exn :=
  Exn LibsndfileError ("Error opening '" +:+ file +:+ "': System error.").

Definition sf_write (file : string) (array : nat) (samplerate : Z) (h : host)
  : outcome unit * host :=
  let h := log (Write file array samplerate) h in
  let format := lower (extension file) in
  if negb (bool_decide (format ∈ sf_formats)) then
    (Raised (Exn TypeError
       "No format specified and unable to get format from file extension"), h)
  else
    match arrays h !! array with
    | None => (Raised (Exn TypeError "data is not an array"), h)
    | Some data =>
        let comps := components file in
        let leaf := List.last comps "." in
        let content := File (Some (Audio format samplerate data)) in
        match walk (fs h) (base h file) (removelast comps) with
        | Found d (Dir writable) =>
            if is_dot leaf then (Raised (open_error file), h)
            else
              match fs h !! (d ++ [leaf]) with
              | Some (File _) =>
                  (Returned tt, set_fs (<[d ++ [leaf] := content]> (fs h)) h)
              | Some (Dir _) => (Raised (open_error file), h)
              | None =>
                  if writable then
                    (Returned tt, set_fs (<[d ++ [leaf] := content]> (fs h)) h)
                  else (Raised (open_error file), h)
              end
        | _ => (Raised (open_error file), h)
        end
    end.

(** The audio file a name leads to, if it leads to one. *)
Definition audio_at (h : host) (name : string) : option audio :=
  match walk (fs h) (base h name) (components name) with
  | Found _ (File (Some a)) => Some a
  | _ => None
  end.

End Host.

(* ===================================================================== *)
(** * The class *)
(* ===================================================================== *)

Module VoiceRecorder.
Import Py Host.

(** The attributes of an instance. *)
Record t := Self {
  duration : number;
  output_path : string;
  file_format : string
}.

Definition SUPPORTED_FORMATS : gset string := {["wav"; "mp3"; "flac"]}.
Definition DEFAULT_FORMAT : string := "wav".
Definition SAMPLE_RATE : Z := 44100.

(** ** Methods as computations

    A method runs on the instance it is called on and on the host, may change
    both, and either returns or raises; what it changed before raising stays
    changed. *)

Definition M (A : Type) : Type := t * host -> outcome A * (t * host).

Definition ret {A} (a : A) : M A := fun s => (Returned a, s).

Definition bind {A B} (m : M A) (k : A -> M B) : M B :=
  fun s =>
    match m s with
    | (Returned a, s') => k a s'
    | (Raised e, s') => (Raised e, s')
    end.

Declare Scope method_scope.
Delimit Scope method_scope with method.
Notation "x <- m ;; k" := (bind m (fun x => k))
  (at level 100, m at next level, right associativity) : method_scope.
Notation "m ;; k" := (bind m (fun _ => k))
  (at level 100, right associativity) : method_scope.
Local Open Scope method_scope.

(** [self] *)
Definition self : M t := fun s => (Returned (fst s), s).

(** [self.file_format = v] *)
Definition set_file_format (v : string) : M unit :=
  fun s =>
    (Returned tt, (Self (duration (fst s)) (output_path (fst s)) v, snd s)).

(** A call into the runtime or a library. *)
Definition call {A} (f : host -> outcome A * host) : M A :=
  fun s => let '(r, h) := f (snd s) in (r, (fst s, h)).

(** An expression that may raise. *)
Definition eval {A} (o : outcome A) : M A := fun s => (o, s).

(** [try: body  except (classes) as error: handler] *)
Definition try_except (body : M unit) (classes : list exn_class)
    (handler : exn -> M unit) : M unit :=
  fun s =>
    match body s with
    | (Raised e, s') =>
        if bool_decide (exn_cls e ∈ classes) then handler e s'
        else (Raised e, s')
    | r => r
    end.

(** ** [validate_path] *)
Definition validate_path : M unit :=
  try_except
    (me <- self ;;
     call (makedirs (output_path me)))
    [FileNotFoundError; PermissionError]
    (fun error =>
       call (print ("Error occurred while creating the directory:"
                      +:+ " " +:+ exn_str error))).

(** ** [validate_format] *)
Definition validate_format : M unit :=
  me <- self ;;
  if negb (bool_decide (file_format me ∈ SUPPORTED_FORMATS)) then
    call (print "Audio file format is not supported. Accepted formats: WAV, MP3, and FLAC.") ;;
    call (print "Using default value: WAV") ;;
    set_file_format DEFAULT_FORMAT
  else ret tt.

(** ** [__init__]

    The three assignments give the new instance its attributes; the two
    validators then run on it.  The caller gets the instance only if neither
    raises. *)
Definition __init__ (duration : number) (output_path file_format : string)
    (h : host) : outcome t * host :=
  let me := Self duration output_path (lower file_format) in
  match (validate_path ;; validate_format) (me, h) with
  | (Returned _, (me', h')) => (Returned me', h')
  | (Raised e, (_, h')) => (Raised e, h')
  end.

(** ** [start_record] *)
Definition start_record : M string :=
  call (print "Recording...") ;;
  me <- self ;;
  frames <- eval (int (mul_int (duration me) SAMPLE_RATE)) ;;
  recording <- call (sd_rec frames SAMPLE_RATE 1) ;;
  call sd_wait ;;
  now <- call time_time ;;
  let output_path :=
    path_join (output_path me)
              (str_of_int (whole_seconds now) +:+ "." +:+ file_format me) in
  call (sf_write output_path recording SAMPLE_RATE) ;;
  ret output_path.

(** ** The script at the end of the module

    It leaves two globals behind, [recorder] and [recording_path]. *)
Definition main (h : host) : outcome (t * string) * host :=
  match __init__ (PyInt 5) "./recordings/" "wavf" h with
  | (Raised e, h1) => (Raised e, h1)
  | (Returned recorder, h1) =>
      match start_record (recorder, h1) with
      | (Raised e, (_, h2)) => (Raised e, h2)
      | (Returned recording_path, (recorder', h2)) =>
          let '(_, h3) := print ("Recording saved at:" +:+ " " +:+ recording_path) h2 in
          (Returned (recorder', recording_path), h3)
      end
  end.

End VoiceRecorder.

(* ===================================================================== *)
(** * Properties *)
(* ===================================================================== *)

Import Py Host VoiceRecorder.

(** ** What each method does, in one equation *)

(** The classes named by the [except] clause of [validate_path]. *)
Definition caught (e : exn) : bool :=
  bool_decide (exn_cls e ∈ [FileNotFoundError; PermissionError]).

Definition report (e : exn) : event :=
  Print ("Error occurred while creating the directory: " +:+ exn_str e).

Definition announce (h : host) : host :=
  log (Print "Using default value: WAV")
    (log (Print "Audio file format is not supported. Accepted formats: WAV, MP3, and FLAC.") h).

Lemma validate_path_run me h :
  validate_path (me, h) =
  match makedirs (output_path me) h with
  | (Returned _, h1) => (Returned tt, (me, h1))
  | (Raised e, h1) =>
      if caught e then (Returned tt, (me, log (report e) h1))
      else (Raised e, (me, h1))
  end.
Proof.
  unfold validate_path, try_except, bind, self, call, caught; simpl.
  destruct (makedirs (output_path me) h) as [[[]|e] h1]; simpl; [reflexivity|].
  destruct (bool_decide _); reflexivity.
Qed.

Lemma validate_format_run me h :
  validate_format (me, h) =
  if bool_decide (file_format me ∈ SUPPORTED_FORMATS) then (Returned tt, (me, h))
  else (Returned tt,
        (Self (duration me) (output_path me) DEFAULT_FORMAT, announce h)).
Proof.
  unfold validate_format, bind, self; simpl.
  destruct (bool_decide _); reflexivity.
Qed.

(** The format an instance ends up with. *)
Definition stored_format (file_format : string) : string :=
  if bool_decide (lower file_format ∈ SUPPORTED_FORMATS) then lower file_format
  else DEFAULT_FORMAT.

Definition after_format (file_format : string) (h : host) : host :=
  if bool_decide (lower file_format ∈ SUPPORTED_FORMATS) then h else announce h.

Lemma init_run d p f h :
  __init__ d p f h =
  match makedirs p h with
  | (Returned _, h1) => (Returned (Self d p (stored_format f)), after_format f h1)
  | (Raised e, h1) =>
      if caught e
      then (Returned (Self d p (stored_format f)),
            after_format f (log (report e) h1))
      else (Raised e, h1)
  end.
Proof.
  unfold __init__, bind, stored_format, after_format.
  rewrite validate_path_run; simpl.
  destruct (makedirs p h) as [[[]|e] h1].
  - rewrite validate_format_run; simpl.
    destruct (bool_decide _); reflexivity.
  - destruct (caught e); [|reflexivity].
    rewrite validate_format_run; simpl.
    destruct (bool_decide _); reflexivity.
Qed.

(** The outcome of constructing an instance whose attributes are going to be
    [me]: the instance, unless creating the directory raises something that
    [validate_path] lets through. *)
Definition constructed (p : string) (h : host) (me : t) : outcome t :=
  match fst (makedirs p h) with
  | Returned _ => Returned me
  | Raised e => if caught e then Returned me else Raised e
  end.

Lemma init_outcome d p f h :
  fst (__init__ d p f h) = constructed p h (Self d p (stored_format f)).
Proof.
  rewrite init_run; unfold constructed.
  destruct (makedirs p h) as [[[]|e] h1]; simpl; [reflexivity|].
  destruct (caught e); reflexivity.
Qed.

(** Membership in the set of supported formats, spelled out. *)
Lemma supported_iff f :
  f ∈ SUPPORTED_FORMATS <-> f = "wav" \/ f = "mp3" \/ f = "flac".
Proof.
  unfold SUPPORTED_FORMATS.
  rewrite !elem_of_union, !elem_of_singleton. tauto.
Qed.

Lemma supported_is_lower f : f ∈ SUPPORTED_FORMATS -> lower f = f.
Proof.
  rewrite supported_iff. intros [-> | [-> | ->]]; reflexivity.
Qed.

(** ** Hosts to run the class on *)

Module Hosts.

Definition home : gmap (list string) node :=
  {[ [] := Dir false; ["home"] := Dir false; ["home"; "ana"] := Dir true ]}.

Definition silence : nat -> nat -> sample := fun _ _ => 0.

(** A writable home directory and a microphone. *)
Definition studio : host :=
  Host home ["home"; "ana"] 1700000000250000000 (Some silence) [] None [].

(** The same machine with the microphone unplugged. *)
Definition mute : host :=
  Host home ["home"; "ana"] 1700000000250000000 None [] None [].

(** The working directory is read-only. *)
Definition kiosk : host :=
  Host (<[ ["home"; "ana"] := Dir false ]> home)
       ["home"; "ana"] 1700000000250000000 (Some silence) [] None [].

(** The working directory holds a regular file called [recordings]. *)
Definition taken : host :=
  Host (<[ ["home"; "ana"; "recordings"] := File None ]> home)
       ["home"; "ana"] 1700000000250000000 (Some silence) [] None [].

End Hosts.

(** ** Construction and the format *)

(** Whether the directory step lets construction go on: [os.makedirs]
    returns, or raises something that [validate_path] catches. *)
Definition directory_passes (p : string) (h : host) : bool :=
  match fst (makedirs p h) with
  | Returned _ => true
  | Raised e => caught e
  end.

Lemma constructed_returns p h me :
  returns (constructed p h me) = directory_passes p h.
Proof.
  unfold constructed, directory_passes.
  destruct (fst (makedirs p h)) as [[]|e]; [reflexivity|].
  destruct (caught e); reflexivity.
Qed.

Lemma constructed_passes p h me :
  directory_passes p h = true -> constructed p h me = Returned me.
Proof.
  unfold constructed, directory_passes.
  destruct (fst (makedirs p h)) as [[]|e]; [reflexivity|].
  intros ->. reflexivity.
Qed.

Lemma constructed_raised p h me e :
  constructed p h me = Raised e ->
  fst (makedirs p h) = Raised e /\ caught e = false.
Proof.
  unfold constructed.
  destruct (fst (makedirs p h)) as [[]|e0]; [discriminate|].
  destruct (caught e0) eqn:Hc; [discriminate|].
  intros [= <-]. split; [reflexivity|exact Hc].
Qed.

(** C1, as stated, fails: construction with an unsupported format does not
    always succeed.  Where the name of the directory is taken by a regular
    file, the constructor raises the [FileExistsError] of [os.makedirs],
    unsupported format or not. *)
Lemma unsupported_format_counterexample :
  (lower "ogg" ∉ SUPPORTED_FORMATS) /\
  fst (__init__ (PyInt 5) "./recordings/" "ogg" Hosts.taken)
  = Raised (EEXIST "./recordings/").
Proof.
  split; [|vm_compute; reflexivity].
  refine (proj1 (bool_decide_eq_false _) _). vm_compute. reflexivity.
Qed.

(** C1, amended.  An unsupported format never makes construction fail.
    Whenever the directory step passes, construction returns the instance,
    with the default format ["wav"]; the constructor raises only what
    [os.makedirs] raised and [validate_path] did not catch; and whether it
    returns or raises is the same as for any other format, supported or
    not. *)
Theorem unsupported_format_defaults d p f h :
  lower f ∉ SUPPORTED_FORMATS ->
  (directory_passes p h = true ->
   fst (__init__ d p f h) = Returned (Self d p "wav")) /\
  (forall e,
     fst (__init__ d p f h) = Raised e ->
     fst (makedirs p h) = Raised e /\ caught e = false) /\
  (forall f',
     returns (fst (__init__ d p f h)) = returns (fst (__init__ d p f' h))).
Proof.
  intros Hbad.
  assert (Hwav : stored_format f = "wav").
  { unfold stored_format. rewrite bool_decide_eq_false_2 by assumption.
    reflexivity. }
  rewrite init_outcome, Hwav. split; [apply constructed_passes|].
  split; [apply constructed_raised|].
  intros f'. rewrite init_outcome, !constructed_returns. reflexivity.
Qed.

Lemma unsupported_format_defaults_witness :
  (lower "Ogg" ∉ SUPPORTED_FORMATS) /\
  directory_passes "./recordings/" Hosts.studio = true /\
  (fst (__init__ (PyInt 5) "./recordings/" "Ogg" Hosts.studio)
   = Returned (Self (PyInt 5) "./recordings/" "wav")).
Proof.
  assert (Hbad : lower "Ogg" ∉ SUPPORTED_FORMATS).
  { refine (proj1 (bool_decide_eq_false _) _). vm_compute. reflexivity. }
  assert (Hpass : directory_passes "./recordings/" Hosts.studio = true)
    by (vm_compute; reflexivity).
  split; [exact Hbad|]. split; [exact Hpass|].
  destruct (unsupported_format_defaults (PyInt 5) "./recordings/" "Ogg"
              Hosts.studio Hbad) as [Hret _].
  exact (Hret Hpass).
Defined.

(** C5. A format whose lower-case form is supported is stored in that form,
    and the three supported names are their own lower-case form, so
    constructing with one of them leaves it unchanged.  (Construction itself
    fails only as described for C1.) *)
Theorem supported_format_kept d p f h :
  lower f ∈ SUPPORTED_FORMATS ->
  fst (__init__ d p f h) = constructed p h (Self d p (lower f)) /\
  (f ∈ SUPPORTED_FORMATS -> lower f = f).
Proof.
  intros Hok. split; [|apply supported_is_lower].
  rewrite init_outcome. unfold stored_format.
  rewrite bool_decide_eq_true_2 by assumption. reflexivity.
Qed.

Lemma supported_format_kept_witness :
  (lower "FLAC" ∈ SUPPORTED_FORMATS) /\
  (fst (__init__ (PyInt 5) "./recordings/" "FLAC" Hosts.studio)
   = Returned (Self (PyInt 5) "./recordings/" "flac")).
Proof.
  assert (Hok : lower "FLAC" ∈ SUPPORTED_FORMATS).
  { refine (proj1 (bool_decide_eq_true _) _). vm_compute. reflexivity. }
  split; [exact Hok|].
  destruct (supported_format_kept (PyInt 5) "./recordings/" "FLAC"
              Hosts.studio Hok) as [-> _].
  vm_compute. reflexivity.
Defined.

(** ** Looking names up in a tree that changes *)

Section Walk.
Variable f : gmap (list string) node.

(** One more component at the end is one more step from where the walk
    arrived. *)
Lemma walk_snoc b cs c :
  walk f b (cs ++ [c]) =
  match walk f b cs with
  | Found d (Dir _) =>
      match f !! move d c with
      | Some n => Found (move d c) n
      | None => NoEntry
      end
  | Found _ (File _) => NotDir
  | NoEntry => NoEntry
  | NotDir => NotDir
  end.
Proof.
  revert b. induction cs as [|c' cs IH]; intros b; simpl.
  - destruct (f !! b) as [[w|?]|]; reflexivity.
  - destruct (f !! b) as [[w|?]|]; try reflexivity. apply IH.
Qed.

(** A walk that ends in a directory only passes through directories, so it
    is not disturbed by an entry added or replaced where there was no
    directory. *)
Lemma walk_insert b cs d w k v :
  walk f b cs = Found d (Dir w) ->
  (forall w', f !! k <> Some (Dir w')) ->
  walk (<[k := v]> f) b cs = Found d (Dir w).
Proof.
  intros Hwalk Hk. revert b Hwalk.
  induction cs as [|c cs IH]; intros b; simpl.
  - destruct (f !! b) as [n|] eqn:E; [|discriminate].
    intros [= <- ->]. rewrite lookup_insert_ne; [rewrite E; reflexivity|].
    intros ->. exact (Hk _ E).
  - destruct (f !! b) as [[w'|?]|] eqn:E; try discriminate.
    intros Hwalk. rewrite lookup_insert_ne; [rewrite E; auto|].
    intros ->. exact (Hk _ E).
Qed.

End Walk.

Lemma move_plain d c : is_dot c = false -> move d c = d ++ [c].
Proof.
  unfold is_dot, move. intros [H1 H2]%orb_false_elim. rewrite H1, H2.
  reflexivity.
Qed.

(** A name whose last component is a plain one leads to the entry of that
    component in the directory the rest of the name leads to. *)
Lemma walk_leaf f b (cs : list string) d w :
  walk f b (removelast cs) = Found d (Dir w) ->
  is_dot (List.last cs ".") = false ->
  walk f b cs =
  match f !! (d ++ [List.last cs "."]) with
  | Some n => Found (d ++ [List.last cs "."]) n
  | None => NoEntry
  end.
Proof.
  intros Hwalk Hleaf.
  destruct cs as [|c0 cs0] eqn:Ecs; [discriminate Hleaf|]. rewrite <- Ecs in *.
  assert (Hne : cs <> []) by (rewrite Ecs; discriminate).
  rewrite (app_removelast_last "." Hne) at 1.
  rewrite walk_snoc, Hwalk, (move_plain _ _ Hleaf). reflexivity.
Qed.

(** ** Writing an audio file *)

(** The test [soundfile.write] makes before it writes. *)
Definition can_create (h : host) (file : string) : bool :=
  bool_decide (lower (extension file) ∈ sf_formats) &&
  match walk (fs h) (base h file) (removelast (components file)) with
  | Found d (Dir writable) =>
      negb (is_dot (List.last (components file) ".")) &&
      match fs h !! (d ++ [List.last (components file) "."]) with
      | Some (File _) => true
      | Some (Dir _) => false
      | None => writable
      end
  | _ => false
  end.

Lemma sf_write_returns file a r h :
  returns (fst (sf_write file a r h))
  = can_create h file && bool_decide (is_Some (arrays h !! a)).
Proof.
  unfold sf_write, can_create; simpl.
  destruct (bool_decide (lower (extension file) ∈ sf_formats)); simpl;
    [|reflexivity].
  destruct (arrays h !! a) as [data|] eqn:Ea; simpl.
  - rewrite ?andb_true_r. change (base (log (Write file a r) h) file) with (base h file).
    destruct (walk _ _ _) as [d [w|?]| |]; try reflexivity.
    destruct (is_dot _); simpl; [reflexivity|].
    destruct (fs h !! _) as [[?|?]|]; try reflexivity.
    destruct w; reflexivity.
  - rewrite ?andb_false_r. reflexivity.
Qed.

(** When it returns, exactly one entry of the tree is new or replaced, it
    holds the array that was passed, and the name leads to it. *)
Lemma sf_write_effect file a r h h' :
  sf_write file a r h = (Returned tt, h') ->
  exists data k,
    arrays h !! a = Some data /\
    (forall w, fs h !! k <> Some (Dir w)) /\
    h' = set_fs (<[k := File (Some (Audio (lower (extension file)) r data))]>
                   (fs h)) (log (Write file a r) h) /\
    audio_at h' file = Some (Audio (lower (extension file)) r data).
Proof.
  unfold sf_write; simpl.
  destruct (bool_decide _); simpl; [|discriminate].
  destruct (arrays h !! a) as [data|]; [|discriminate].
  destruct (walk _ _ _) as [d [w|?]| |] eqn:Hwalk; try discriminate.
  destruct (is_dot _) eqn:Hleaf; [discriminate|].
  set (k := d ++ [List.last (components file) "."]).
  assert (Hgoal : forall n, fs h !! k = n ->
            (forall w', n <> Some (Dir w')) ->
            audio_at
              (set_fs (<[k := File (Some (Audio (lower (extension file)) r data))]>
                         (fs h)) (log (Write file a r) h)) file
            = Some (Audio (lower (extension file)) r data)).
  { intros n Hn Hnd. unfold audio_at; simpl.
    rewrite (walk_leaf _ _ _ d w); [fold k; rewrite lookup_insert_eq; reflexivity| |exact Hleaf].
    apply walk_insert; [exact Hwalk|]. rewrite Hn. exact Hnd. }
  destruct (fs h !! k) as [[w'|c]|] eqn:Hk; try discriminate.
  - intros [= <-]. exists data, k. split; [reflexivity|].
    split; [intros w'; rewrite Hk; discriminate|]. split; [reflexivity|].
    apply (Hgoal _ eq_refl). discriminate.
  - destruct w; [|discriminate].
    intros [= <-]. exists data, k. split; [reflexivity|].
    split; [intros w'; rewrite Hk; discriminate|]. split; [reflexivity|].
    apply (Hgoal _ eq_refl). discriminate.
Qed.

(** When it raises, nothing but the trace has changed. *)
Lemma sf_write_failure file a r h e h' :
  sf_write file a r h = (Raised e, h') -> h' = log (Write file a r) h.
Proof.
  unfold sf_write; simpl.
  destruct (bool_decide _); simpl; [|congruence].
  destruct (arrays h !! a); [|congruence].
  destruct (walk _ _ _) as [d [w|?]| |]; try congruence.
  destruct (is_dot _); [congruence|].
  destruct (fs h !! _) as [[?|?]|]; try congruence.
  destruct w; congruence.
Qed.

(** ** [start_record], step by step *)

(** The name the recording gets when the clock reads [now]. *)
Definition recording_name (me : t) (now : Z) : string :=
  path_join (output_path me)
            (str_of_int (whole_seconds now) +:+ "." +:+ file_format me).

(** The array once [frames] frames of one channel have been captured. *)
Definition recorded (frames : Z) (signal : nat -> nat -> sample) : ndarray :=
  map (fun i => [Some (signal i 0%nat)]) (seq 0 (Z.to_nat frames)).

(** The host when the capture is over and the clock has been read. *)
Definition after_capture (frames : Z) (signal : nat -> nat -> sample)
    (h : host) : host :=
  Host (fs h) (cwd h) (clock h + capture_time frames SAMPLE_RATE) (mic h)
       (arrays h ++ [recorded frames signal]) None
       (trace h ++ [Print "Recording..."; Rec frames SAMPLE_RATE 1; Wait; Time]).

Definition no_frames : exn := Exn ValueError "negative dimensions are not allowed".
Definition no_device : exn := Exn PortAudioError "Error querying device -1".

Lemma start_record_run me h :
  start_record (me, h) =
  let h0 := log (Print "Recording...") h in
  match int (mul_int (duration me) SAMPLE_RATE) with
  | Raised e => (Raised e, (me, h0))
  | Returned frames =>
      let h1 := log (Rec frames SAMPLE_RATE 1) h0 in
      if frames <? 0 then (Raised no_frames, (me, h1))
      else
        match mic h with
        | None => (Raised no_device, (me, h1))
        | Some signal =>
            let h2 := after_capture frames signal h in
            let file := recording_name me (clock h2) in
            match sf_write file (length (arrays h)) SAMPLE_RATE h2 with
            | (Returned _, h3) => (Returned file, (me, h3))
            | (Raised e, h3) => (Raised e, (me, h3))
            end
        end
  end.
Proof.
  cbv beta iota zeta delta [start_record bind call self eval ret fst snd print].
  destruct (int (mul_int (duration me) SAMPLE_RATE)) as [frames|e];
    [|reflexivity].
  cbv beta iota zeta delta [sd_rec].
  change (mic (log (Rec frames SAMPLE_RATE 1) (log (Print "Recording...") h)))
    with (mic h).
  change (arrays (log (Rec frames SAMPLE_RATE 1) (log (Print "Recording...") h)))
    with (arrays h).
  destruct (frames <? 0) eqn:Hneg; [reflexivity|].
  destruct (mic h) as [signal|] eqn:Hmic; [|reflexivity].
  apply Z.ltb_ge in Hneg.
  cbv beta iota zeta delta
    [sd_wait time_time fst snd log set_active set_arrays set_clock
     fs cwd clock mic arrays active trace st_array st_frames st_rate].
  rewrite Z2Nat.id by assumption.
  replace (length (arrays h)) with (length (arrays h) + 0)%nat at 2 by lia.
  rewrite insert_app_r, <- !app_assoc.
  change (<[0%nat := ?x]> [?y]) with [x].
  match goal with
  | |- _ = ?R =>
      change
        ((let (o, s') :=
            let '(r, h') :=
              sf_write (recording_name me (clock (after_capture frames signal h)))
                       (length (arrays h)) SAMPLE_RATE
                       (after_capture frames signal h) in
            (r, (me, h')) in
          match o with
          | Returned _ =>
              (Returned
                 (recording_name me (clock (after_capture frames signal h))),
               s')
          | Raised e => (Raised e, s')
          end) = R)
  end.
  cbv zeta.
  destruct (sf_write _ _ _ _) as [[[]|e] h3]; reflexivity.
Qed.

(** The host a call leaves behind when it returns [file]. *)
Definition after_record (frames : Z) (signal : nat -> nat -> sample)
    (file : string) (k : path) (h : host) : host :=
  Host (<[k := File (Some (Audio (lower (extension file)) SAMPLE_RATE
                             (recorded frames signal)))]> (fs h))
       (cwd h) (clock h + capture_time frames SAMPLE_RATE) (mic h)
       (arrays h ++ [recorded frames signal]) None
       (trace h ++ [Print "Recording..."; Rec frames SAMPLE_RATE 1; Wait; Time;
                    Write file (length (arrays h)) SAMPLE_RATE]).

Lemma start_record_success me h file s' :
  start_record (me, h) = (Returned file, s') ->
  exists frames signal k,
    int (mul_int (duration me) SAMPLE_RATE) = Returned frames /\
    0 <= frames /\
    mic h = Some signal /\
    file = recording_name me (clock h + capture_time frames SAMPLE_RATE) /\
    (forall w, fs h !! k <> Some (Dir w)) /\
    s' = (me, after_record frames signal file k h) /\
    audio_at (snd s') file
    = Some (Audio (lower (extension file)) SAMPLE_RATE (recorded frames signal)).
Proof.
  rewrite start_record_run. cbv zeta.
  destruct (int _) as [frames|e]; [|discriminate].
  destruct (frames <? 0) eqn:Hneg; [discriminate|]. apply Z.ltb_ge in Hneg.
  destruct (mic h) as [signal|] eqn:Hmic; [|discriminate].
  destruct (sf_write _ _ _ _) as [[[]|e] h3] eqn:Hwrite; [|discriminate].
  intros [= <- <-]. exists frames, signal.
  apply sf_write_effect in Hwrite as (data & k & Hdata & Hk & -> & Haudio).
  exists k.
  assert (data = recorded frames signal) as ->.
  { unfold after_capture in Hdata; cbn [arrays] in Hdata.
    rewrite list_lookup_middle in Hdata by reflexivity. congruence. }
  repeat split; try assumption; try reflexivity.
  unfold after_record, after_capture, set_fs, log; cbn [fs cwd clock mic arrays active trace].
  rewrite <- app_assoc. reflexivity.
Qed.

Lemma start_record_same_self me h : fst (snd (start_record (me, h))) = me.
Proof.
  rewrite start_record_run. cbv zeta.
  destruct (int _) as [frames|e]; [|reflexivity].
  destruct (frames <? 0); [reflexivity|].
  destruct (mic h); [|reflexivity].
  destruct (sf_write _ _ _ _) as [[[]|e] h3]; reflexivity.
Qed.

Lemma start_record_raised_fs me h e s' :
  start_record (me, h) = (Raised e, s') -> fs (snd s') = fs h.
Proof.
  rewrite start_record_run. cbv zeta.
  destruct (int _) as [frames|e0]; [|intros [= _ <-]; reflexivity].
  destruct (frames <? 0); [intros [= _ <-]; reflexivity|].
  destruct (mic h); [|intros [= _ <-]; reflexivity].
  destruct (sf_write _ _ _ _) as [[[]|e1] h3] eqn:Hwrite; [discriminate|].
  intros [= _ <-]. apply sf_write_failure in Hwrite as ->. reflexivity.
Qed.

(** The call returns exactly when the number of frames is defined and not
    negative, there is an input device, and the file can be created. *)
Definition ready (me : t) (h : host) : bool :=
  match int (mul_int (duration me) SAMPLE_RATE) with
  | Returned frames =>
      (0 <=? frames) && bool_decide (is_Some (mic h)) &&
      can_create h
        (recording_name me (clock h + capture_time frames SAMPLE_RATE))
  | Raised _ => false
  end.

Lemma start_record_returns me h :
  returns (fst (start_record (me, h))) = ready me h.
Proof.
  rewrite start_record_run. unfold ready. cbv zeta.
  destruct (int _) as [frames|e]; [|reflexivity].
  rewrite Z.leb_antisym.
  destruct (frames <? 0); [reflexivity|].
  destruct (mic h) as [signal|] eqn:Hmic.
  - rewrite bool_decide_eq_true_2 by eauto.
    pose proof (sf_write_returns
                  (recording_name me (clock (after_capture frames signal h)))
                  (length (arrays h)) SAMPLE_RATE
                  (after_capture frames signal h)) as Hw.
    change (arrays (after_capture frames signal h))
      with (arrays h ++ [recorded frames signal]) in Hw.
    rewrite list_lookup_middle in Hw by reflexivity.
    rewrite bool_decide_eq_true_2, andb_true_r in Hw by eauto.
    cbn [negb andb].
    destruct (sf_write _ _ _ _) as [[[]|e] h3]; exact Hw.
  - rewrite bool_decide_eq_false_2 by (intros [? ?]; discriminate).
    reflexivity.
Qed.

(** ** The calls a run of [start_record] adds to the trace *)

Definition since (h h' : host) : list event :=
  drop (length (trace h)) (trace h').

Definition capture_requests (l : list event) : list (Z * Z * Z) :=
  omap (fun e => match e with Rec f r c => Some (f, r, c) | _ => None end) l.

Definition files_written (l : list event) : list string :=
  omap (fun e => match e with Write file _ _ => Some file | _ => None end) l.

Lemma since_app h h' l : trace h' = trace h ++ l -> since h h' = l.
Proof. unfold since. intros ->. apply drop_app_length. Qed.

Lemma sf_write_trace file a r h :
  trace (snd (sf_write file a r h)) = trace h ++ [Write file a r].
Proof.
  destruct (sf_write file a r h) as [[[]|e] h'] eqn:Hw.
  - apply sf_write_effect in Hw as (data & k & _ & _ & -> & _). reflexivity.
  - apply sf_write_failure in Hw as ->. reflexivity.
Qed.

Lemma start_record_calls me h :
  since h (snd (snd (start_record (me, h)))) =
  Print "Recording..." ::
  match int (mul_int (duration me) SAMPLE_RATE) with
  | Raised _ => []
  | Returned frames =>
      Rec frames SAMPLE_RATE 1 ::
      if (0 <=? frames) && bool_decide (is_Some (mic h)) then
        [Wait; Time;
         Write (recording_name me (clock h + capture_time frames SAMPLE_RATE))
               (length (arrays h)) SAMPLE_RATE]
      else []
  end.
Proof.
  apply since_app. rewrite start_record_run. cbv zeta.
  destruct (int _) as [frames|e]; [|reflexivity].
  rewrite Z.leb_antisym.
  destruct (frames <? 0); [cbn [snd trace log]; rewrite <- app_assoc; reflexivity|].
  destruct (mic h) as [signal|] eqn:Hmic.
  - rewrite bool_decide_eq_true_2 by eauto.
    pose proof (sf_write_trace
                  (recording_name me (clock (after_capture frames signal h)))
                  (length (arrays h)) SAMPLE_RATE
                  (after_capture frames signal h)) as Ht.
    destruct (sf_write _ _ _ _) as [[[]|e] h3]; cbn [snd] in *; rewrite Ht;
      unfold after_capture; cbn [trace clock]; rewrite <- app_assoc; reflexivity.
  - rewrite bool_decide_eq_false_2 by (intros [? ?]; discriminate).
    cbn [snd trace log]. rewrite <- app_assoc. reflexivity.
Qed.

(** ** The recorder over its life *)

(** C10. [start_record] only reads the attributes: whether it returns or
    raises, the instance has the duration, the directory and the format it
    had before the call. *)
Theorem start_record_keeps_configuration me h :
  duration (fst (snd (start_record (me, h)))) = duration me /\
  output_path (fst (snd (start_record (me, h)))) = output_path me /\
  file_format (fst (snd (start_record (me, h)))) = file_format me.
Proof. rewrite start_record_same_self. repeat split. Qed.

(** The states an instance and its host go through: the instance is
    constructed, [start_record] is called on it any number of times, and
    between the calls the host does whatever it does. *)
Inductive in_use : t -> host -> Prop :=
  | use_new d p f h me h' :
      __init__ d p f h = (Returned me, h') -> in_use me h'
  | use_record me h r me' h' :
      in_use me h -> start_record (me, h) = (r, (me', h')) -> in_use me' h'
  | use_host me h h' :
      in_use me h -> in_use me h'.

Lemma init_format_supported d p f h me h' :
  __init__ d p f h = (Returned me, h') -> file_format me ∈ SUPPORTED_FORMATS.
Proof.
  intros Hinit.
  assert (Hme : me = Self d p (stored_format f)).
  { pose proof (init_outcome d p f h) as Ho. rewrite Hinit in Ho.
    unfold constructed in Ho. cbn [fst] in Ho.
    destruct (fst (makedirs p h)) as [[]|e]; [congruence|].
    destruct (caught e); congruence. }
  subst me. cbn [file_format]. unfold stored_format.
  case_bool_decide as Hin; [exact Hin|].
  apply supported_iff. left. reflexivity.
Qed.

(** C6. Once construction has completed the format is one of the supported
    ones, and it stays so whatever happens afterwards: in every state in
    which [start_record] can be called, and in the state each such call
    leaves. *)
Theorem format_always_supported me h :
  in_use me h -> file_format me ∈ SUPPORTED_FORMATS.
Proof.
  induction 1 as [d p f h me h' Hinit | me h r me' h' _ IH Hrec | me h h' _ IH].
  - exact (init_format_supported _ _ _ _ _ _ Hinit).
  - pose proof (start_record_same_self me h) as Hsame.
    rewrite Hrec in Hsame. cbn [fst snd] in Hsame. subst me'. exact IH.
  - exact IH.
Qed.

Lemma format_always_supported_witness :
  exists me h,
    in_use me h /\ file_format me = "wav" /\
    file_format me ∈ SUPPORTED_FORMATS.
Proof.
  pose (c := __init__ (PyInt 0) "./recordings/" "wma" Hosts.studio).
  pose (me := Self (PyInt 0) "./recordings/" "wav").
  assert (Hnew : in_use me (snd c)).
  { apply (use_new (PyInt 0) "./recordings/" "wma" Hosts.studio).
    vm_compute. reflexivity. }
  pose (s := start_record (me, snd c)).
  assert (Hrec : in_use (fst (snd s)) (snd (snd s))).
  { apply (use_record me (snd c) (fst s)); [exact Hnew|].
    unfold s. destruct (start_record (me, snd c)) as [r [me' h']]. reflexivity. }
  exists (fst (snd s)), (snd (snd s)).
  split; [exact Hrec|]. split; [vm_compute; reflexivity|].
  exact (format_always_supported _ _ Hrec).
Defined.

(** ** What a call to [start_record] produces *)

Lemma capture_time_nonneg frames :
  0 <= frames -> 0 <= capture_time frames SAMPLE_RATE.
Proof.
  intros Hf. unfold capture_time, SAMPLE_RATE. apply Z.div_pos; lia.
Qed.

Lemma capture_time_seconds D :
  capture_time (D * SAMPLE_RATE) SAMPLE_RATE = D * 1000000000.
Proof.
  unfold capture_time, SAMPLE_RATE.
  replace (D * 44100 * 1000000000) with (D * 1000000000 * 44100) by lia.
  apply Z.div_mul. discriminate.
Qed.

Lemma ready_returned me h :
  ready me h = true ->
  exists file s', start_record (me, h) = (Returned file, s').
Proof.
  rewrite <- start_record_returns.
  destruct (start_record (me, h)) as [[file|e] s']; [eauto|discriminate].
Qed.

(** C3. A call that returns - and it returns whenever the host is [ready] for
    it - returns the output directory joined with [<integer>.<format>], where
    the integer is the whole number of seconds of a clock reading taken
    during the call, hence not before it, and the format is the one
    stored in the instance. *)
Theorem recording_path me h :
  ready me h = true ->
  exists file now,
    fst (start_record (me, h)) = Returned file /\
    clock h <= now /\
    now = clock (snd (snd (start_record (me, h)))) /\
    file = path_join (output_path me)
             (str_of_int (whole_seconds now) +:+ "." +:+ file_format me).
Proof.
  intros (file & s' & Hrun)%ready_returned. rewrite Hrun.
  destruct (start_record_success _ _ _ _ Hrun)
    as (frames & signal & k & _ & Hpos & _ & Hfile & _ & -> & _).
  exists file, (clock h + capture_time frames SAMPLE_RATE).
  split; [reflexivity|]. split; [|split; [reflexivity|exact Hfile]].
  pose proof (capture_time_nonneg frames Hpos). lia.
Qed.

Lemma recording_path_witness :
  let me := Self (PyInt 2) "./recordings/" "mp3" in
  let h := snd (__init__ (PyInt 2) "./recordings/" "mp3" Hosts.studio) in
  ready me h = true /\
  fst (start_record (me, h)) = Returned "./recordings/1700000002.mp3".
Proof.
  intros me h.
  assert (Hready : ready me h = true) by (vm_compute; reflexivity).
  split; [exact Hready|].
  destruct (recording_path me h Hready) as (file & now & -> & _ & -> & ->).
  vm_compute. reflexivity.
Defined.

Lemma recorded_frames frames signal :
  0 <= frames -> n_frames (recorded frames signal) = frames.
Proof.
  intros Hf. unfold n_frames, recorded.
  rewrite length_map, length_seq. apply Z2Nat.id, Hf.
Qed.

Lemma recorded_mono frames signal : mono (recorded frames signal).
Proof.
  unfold mono, recorded. apply Forall_map, Forall_forall. reflexivity.
Qed.

Lemma recorded_captured frames signal : captured (recorded frames signal).
Proof.
  unfold captured, recorded. apply Forall_map, Forall_forall. intros i _.
  repeat constructor. eauto.
Qed.

(** C4. With an [int] duration [D] the one capture the call asks for is of
    [D * 44100] frames, one channel, 44100 frames per second, on the default
    input device ([rec] is given no other); and when the host is [ready] the
    file the call returns holds exactly those [D * 44100] frames of one
    channel, each of them captured, at that rate. *)
Theorem frames_requested me h D :
  duration me = PyInt D ->
  capture_requests (since h (snd (snd (start_record (me, h)))))
  = [(D * 44100, 44100, 1)] /\
  (ready me h = true ->
   exists file a,
     fst (start_record (me, h)) = Returned file /\
     audio_at (snd (snd (start_record (me, h)))) file = Some a /\
     au_rate a = 44100 /\
     n_frames (au_data a) = D * 44100 /\
     mono (au_data a) /\ captured (au_data a)).
Proof.
  intros Hd. split.
  - rewrite start_record_calls, Hd. cbn [mul_int int].
    destruct (_ && _); reflexivity.
  - intros (file & s' & Hrun)%ready_returned. rewrite Hrun.
    destruct (start_record_success _ _ _ _ Hrun)
      as (frames & signal & k & Hframes & Hpos & _ & _ & _ & _ & Haudio).
    rewrite Hd in Hframes. cbn [mul_int int] in Hframes.
    injection Hframes as <-.
    exists file, (Audio (lower (extension file)) SAMPLE_RATE
                   (recorded (D * SAMPLE_RATE) signal)).
    split; [reflexivity|]. split; [exact Haudio|]. cbn [au_rate au_data].
    split; [reflexivity|]. split; [apply recorded_frames, Hpos|].
    split; [apply recorded_mono|apply recorded_captured].
Qed.

Lemma frames_requested_witness :
  let me := Self (PyInt 1) "./recordings/" "flac" in
  let h := snd (__init__ (PyInt 1) "./recordings/" "flac" Hosts.studio) in
  duration me = PyInt 1 /\ ready me h = true /\
  capture_requests (since h (snd (snd (start_record (me, h)))))
  = [(44100, 44100, 1)] /\
  exists a,
    audio_at (snd (snd (start_record (me, h)))) "./recordings/1700000001.flac"
    = Some a /\ n_frames (au_data a) = 44100.
Proof.
  intros me h.
  assert (Hready : ready me h = true) by (vm_compute; reflexivity).
  split; [reflexivity|]. split; [exact Hready|].
  destruct (frames_requested me h 1 eq_refl) as [Hreq Hfile].
  split; [exact Hreq|].
  destruct (Hfile Hready) as (file & a & Hret & Ha & _ & Hn & _).
  assert (Hname : fst (start_record (me, h))
                  = Returned "./recordings/1700000001.flac")
    by (vm_compute; reflexivity).
  rewrite Hname in Hret. injection Hret as <-.
  exists a. split; [exact Ha|exact Hn].
Defined.

(** C7, as stated, fails: an instance constructed where the directory could
    not be created is a perfectly good instance, and calling [start_record]
    on it captures for the whole duration and then raises when the file is
    to be written.  The call has written no file. *)
Lemma one_file_per_call_counterexample :
  let me := Self (PyInt 1) "./recordings/" "wav" in
  let h := snd (__init__ (PyInt 1) "./recordings/" "wav" Hosts.kiosk) in
  fst (__init__ (PyInt 1) "./recordings/" "wav" Hosts.kiosk) = Returned me /\
  fst (start_record (me, h))
  = Raised (open_error "./recordings/1700000001.wav") /\
  fs (snd (snd (start_record (me, h)))) = fs h /\
  audio_at (snd (snd (start_record (me, h)))) "./recordings/1700000001.wav"
  = None.
Proof. vm_compute. repeat split. Qed.

(** C7, amended.  A call that returns - a call on a [ready] host - has made
    exactly these calls, in this order: the capture is started, waited for,
    and only then is a file written, once, under the name that is returned.
    The tree differs from the one before the call in that one entry, which
    holds every frame that was asked for; and the wait has lasted as long as
    that many frames take at 44100 frames per second, which for an [int]
    duration is that number of seconds. *)
Theorem one_file_per_completed_call me h :
  ready me h = true ->
  exists file frames k a,
    fst (start_record (me, h)) = Returned file /\
    int (mul_int (duration me) SAMPLE_RATE) = Returned frames /\
    since h (snd (snd (start_record (me, h))))
    = [Print "Recording..."; Rec frames SAMPLE_RATE 1; Wait; Time;
       Write file (length (arrays h)) SAMPLE_RATE] /\
    fs (snd (snd (start_record (me, h)))) = <[k := File (Some a)]> (fs h) /\
    (forall w, fs h !! k <> Some (Dir w)) /\
    audio_at (snd (snd (start_record (me, h)))) file = Some a /\
    n_frames (au_data a) = frames /\ captured (au_data a) /\
    clock (snd (snd (start_record (me, h))))
    = clock h + capture_time frames SAMPLE_RATE /\
    (forall D, duration me = PyInt D ->
       clock (snd (snd (start_record (me, h)))) = clock h + D * 1000000000).
Proof.
  intros (file & s' & Hrun)%ready_returned. rewrite Hrun.
  destruct (start_record_success _ _ _ _ Hrun)
    as (frames & signal & k & Hframes & Hpos & _ & _ & Hk & -> & Haudio).
  exists file, frames, k,
    (Audio (lower (extension file)) SAMPLE_RATE (recorded frames signal)).
  split; [reflexivity|]. split; [exact Hframes|].
  split; [apply since_app; reflexivity|].
  split; [reflexivity|]. split; [exact Hk|]. split; [exact Haudio|].
  cbn [au_data snd after_record clock].
  split; [apply recorded_frames, Hpos|]. split; [apply recorded_captured|].
  split; [reflexivity|].
  intros D Hd. rewrite Hd in Hframes. cbn [mul_int int] in Hframes.
  injection Hframes as <-. rewrite capture_time_seconds. reflexivity.
Qed.

Lemma one_file_per_completed_call_witness :
  let me := Self (PyInt 1) "./recordings/" "wav" in
  let h := snd (__init__ (PyInt 1) "./recordings/" "wav" Hosts.studio) in
  ready me h = true /\
  files_written (since h (snd (snd (start_record (me, h)))))
  = ["./recordings/1700000001.wav"] /\
  clock (snd (snd (start_record (me, h)))) = clock h + 1000000000.
Proof.
  intros me h.
  assert (Hready : ready me h = true) by (vm_compute; reflexivity).
  split; [exact Hready|].
  destruct (one_file_per_completed_call me h Hready)
    as (file & frames & k & a & Hret & _ & -> & _ & _ & _ & _ & _ & _ & Hclock).
  assert (Hname : fst (start_record (me, h))
                  = Returned "./recordings/1700000001.wav")
    by (vm_compute; reflexivity).
  rewrite Hname in Hret. injection Hret as <-.
  split; [reflexivity|]. exact (Hclock 1 eq_refl).
Defined.

(** ** Creating the output directory *)

Lemma mkdir_creates name b cs f f' :
  mkdir name b cs f = (Returned tt, f') -> isdir f' b cs = true.
Proof.
  unfold mkdir. destruct (has_nul_in cs); [discriminate|].
  destruct (walk f b (removelast cs)) as [d [w|?]| |] eqn:Hwalk; try discriminate.
  destruct (is_dot _) eqn:Hleaf; [discriminate|].
  destruct (f !! _) eqn:Hnew; [discriminate|].
  destruct w; [|discriminate]. intros [= <-].
  unfold isdir.
  rewrite (walk_leaf _ _ _ d true);
    [rewrite lookup_insert_eq; reflexivity| |exact Hleaf].
  apply walk_insert; [exact Hwalk|]. rewrite Hnew. discriminate.
Qed.

Lemma mkdir_exist_ok_isdir name b cs f f' :
  mkdir_exist_ok name b cs f = (Returned tt, f') -> isdir f' b cs = true.
Proof.
  unfold mkdir_exist_ok.
  destruct (mkdir name b cs f) as [[[]|e] f1] eqn:Hmk.
  - intros [= <-]. exact (mkdir_creates _ _ _ _ _ Hmk).
  - destruct (is_os_error e && path_isdir f1 b cs) eqn:Hdir; [|discriminate].
    intros [= <-]. unfold path_isdir in Hdir.
    apply andb_prop in Hdir as [_ [_ Hdir]%andb_prop]. exact Hdir.
Qed.

(** When [os.makedirs] returns, the name leads to a directory - provided its
    last component is not [.], the one case in which the library function
    returns without having looked at the leaf. *)
Lemma makedirs_rev_isdir name b rc f f' :
  hd_error rc <> Some "." ->
  makedirs_rev name b rc f = (Returned tt, f') ->
  isdir f' b (rev rc) = true.
Proof.
  destruct rc as [|tail rhead]; intros Hdot; cbn [makedirs_rev].
  - apply mkdir_exist_ok_isdir.
  - assert (Htail : String.eqb tail "." = false).
    { apply String.eqb_neq. intros ->. apply Hdot. reflexivity. }
    rewrite Htail.
    destruct (path_exists f b (rev rhead)); [apply mkdir_exist_ok_isdir|].
    destruct (makedirs_rev name b rhead f) as [[[]|e] f1].
    + apply mkdir_exist_ok_isdir.
    + destruct (decide _); [apply mkdir_exist_ok_isdir|discriminate].
Qed.

Lemma makedirs_isdir p h h1 :
  hd_error (rev (components p)) <> Some "." ->
  makedirs p h = (Returned tt, h1) ->
  isdir (fs h1) (base h1 p) (components p) = true.
Proof.
  intros Hdot. unfold makedirs.
  destruct (String.eqb p ""); [discriminate|].
  destruct (makedirs_rev _ _ _ _) as [r f'] eqn:Hrev.
  intros [= -> <-].
  apply makedirs_rev_isdir in Hrev; [|exact Hdot].
  rewrite rev_involutive in Hrev. exact Hrev.
Qed.

(** The exception to the rule: on a host where [recordings] is a regular
    file, [os.makedirs("x/../recordings/.", exist_ok=True)] returns. *)
Example makedirs_dot_returns :
  let r := makedirs "x/../recordings/." Hosts.taken in
  fst r = Returned tt /\
  isdir (fs (snd r)) (base (snd r) "x/../recordings/.")
        (components "x/../recordings/.") = false.
Proof. vm_compute. split; reflexivity. Qed.

(** C2, as stated, fails: [validate_path] catches two classes of exception
    and [os.makedirs] raises others.  Where the name of the directory is
    taken by a regular file it raises [FileExistsError], nothing is logged,
    and the caller of the constructor gets the exception. *)
Lemma directory_error_propagates_counterexample :
  fst (__init__ (PyInt 5) "./recordings/" "wav" Hosts.taken)
  = Raised (EEXIST "./recordings/") /\
  trace (snd (__init__ (PyInt 5) "./recordings/" "wav" Hosts.taken))
  = [Makedirs "./recordings/"].
Proof. vm_compute. split; reflexivity. Qed.

(** C2, amended.  Of the exceptions raised while the directory is created, a
    [FileNotFoundError] or a [PermissionError] is caught and logged, and
    construction then returns the instance; any other goes to the caller.
    When creating the directory succeeds, construction returns the instance
    and the directory is there afterwards. *)
Theorem directory_errors d p f h :
  (forall e h1,
     makedirs p h = (Raised e, h1) ->
     exn_cls e ∈ [FileNotFoundError; PermissionError] ->
     exists me h',
       __init__ d p f h = (Returned me, h') /\ report e ∈ trace h') /\
  (forall e h1,
     makedirs p h = (Raised e, h1) ->
     exn_cls e ∉ [FileNotFoundError; PermissionError] ->
     __init__ d p f h = (Raised e, h1)) /\
  (forall h1,
     makedirs p h = (Returned tt, h1) ->
     exists me h',
       __init__ d p f h = (Returned me, h') /\
       (hd_error (rev (components p)) <> Some "." ->
        isdir (fs h') (base h' p) (components p) = true)).
Proof.
  rewrite init_run. repeat split.
  - intros e h1 -> Hcls. unfold caught. rewrite bool_decide_eq_true_2 by exact Hcls.
    eexists _, _. split; [reflexivity|].
    unfold after_format, announce, log; destruct (bool_decide _); cbn [trace];
      rewrite ?elem_of_app, !list_elem_of_singleton; tauto.
  - intros e h1 -> Hcls. unfold caught. rewrite bool_decide_eq_false_2 by exact Hcls.
    reflexivity.
  - intros h1 Hmk. rewrite Hmk. eexists _, _. split; [reflexivity|].
    intros Hdot. pose proof (makedirs_isdir _ _ _ Hdot Hmk) as Hdir.
    unfold after_format, announce, log; destruct (bool_decide _); exact Hdir.
Qed.

Lemma directory_errors_witness :
  exists e h1,
    makedirs "./recordings/" Hosts.kiosk = (Raised e, h1) /\
    exn_cls e = PermissionError /\
    returns (fst (__init__ (PyInt 5) "./recordings/" "wav" Hosts.kiosk)) = true.
Proof.
  exists (EACCES "./recordings/"),
         (snd (makedirs "./recordings/" Hosts.kiosk)).
  assert (Hmk : makedirs "./recordings/" Hosts.kiosk
                = (Raised (EACCES "./recordings/"),
                   snd (makedirs "./recordings/" Hosts.kiosk)))
    by (vm_compute; reflexivity).
  split; [exact Hmk|]. split; [reflexivity|].
  destruct (directory_errors (PyInt 5) "./recordings/" "wav" Hosts.kiosk)
    as [Hcaught _].
  destruct (Hcaught _ _ Hmk) as (me & h' & -> & _).
  - cbn [exn_cls EACCES os_error]. apply list_elem_of_In. right. left. reflexivity.
  - reflexivity.
Defined.

(** ** The script *)

Lemma endswith_refl p : endswith p p = true.
Proof. destruct p; simpl; rewrite ?Ascii.eqb_refl, ?String.eqb_refl; reflexivity. Qed.

Lemma endswith_append a b p : endswith b p = true -> endswith (a +:+ b) p = true.
Proof.
  intros Hb. induction a as [|c a IH]; [exact Hb|].
  change (endswith (String c a +:+ b) p)
    with (String.eqb (String c (a +:+ b)) p || endswith (a +:+ b) p).
  rewrite IH. apply orb_true_r.
Qed.

Lemma path_join_ends a b p :
  endswith b p = true -> endswith (path_join a b) p = true.
Proof.
  intros Hb. unfold path_join.
  destruct (startswith b sep); [exact Hb|].
  destruct (_ || _); repeat apply endswith_append; exact Hb.
Qed.

(** The host is ready for the script when the constructor returns and the
    host it leaves is ready for [start_record]. *)
Definition example_ready (h : host) : bool :=
  match __init__ (PyInt 5) "./recordings/" "wavf" h with
  | (Returned recorder, h1) => ready recorder h1
  | (Raised _, _) => false
  end.

Lemma main_returns h : returns (fst (main h)) = example_ready h.
Proof.
  unfold main, example_ready.
  destruct (__init__ _ _ _ h) as [[recorder|e] h1]; [|reflexivity].
  rewrite <- start_record_returns.
  destruct (start_record (recorder, h1)) as [[file|e] [me' h2]]; reflexivity.
Qed.

(** C8. The script asks for the format ["wavf"], which is not a supported
    one.  So the constructor reports it and falls back on the default, the
    recorder the script ends up with has format ["wav"], and the file that its
    call to [start_record] writes and returns the name of is a [.wav]. *)
Theorem example_records_wav h :
  example_ready h = true ->
  exists recorder recording_path,
    fst (main h) = Returned (recorder, recording_path) /\
    (lower "wavf" ∉ SUPPORTED_FORMATS) /\
    (Print "Using default value: WAV" ∈ trace (snd (main h))) /\
    file_format recorder = "wav" /\
    endswith recording_path ".wav" = true /\
    is_Some (audio_at (snd (main h)) recording_path).
Proof.
  assert (Hbad : lower "wavf" ∉ SUPPORTED_FORMATS).
  { refine (proj1 (bool_decide_eq_false _) _). vm_compute. reflexivity. }
  unfold example_ready, main.
  pose proof (init_run (PyInt 5) "./recordings/" "wavf" h) as Hinit.
  unfold stored_format, after_format in Hinit.
  rewrite !bool_decide_eq_false_2 in Hinit by exact Hbad.
  destruct (__init__ _ _ _ h) as [[recorder|e] h1]; [|discriminate].
  intros (file & s' & Hrun)%ready_returned. rewrite Hrun.
  destruct (start_record_success _ _ _ _ Hrun)
    as (frames & signal & k & _ & _ & _ & Hfile & _ & -> & Haudio).
  assert (Hme : recorder = Self (PyInt 5) "./recordings/" DEFAULT_FORMAT /\
                Print "Using default value: WAV" ∈ trace h1).
  { destruct (makedirs "./recordings/" h) as [[[]|e] h0].
    - injection Hinit as -> ->. split; [reflexivity|].
      unfold announce, log; cbn [trace]. rewrite elem_of_app, list_elem_of_singleton. tauto.
    - destruct (caught e); [|discriminate].
      injection Hinit as -> ->. split; [reflexivity|].
      unfold announce, log; cbn [trace]. rewrite elem_of_app, list_elem_of_singleton. tauto. }
  destruct Hme as [-> Hsaid].
  exists (Self (PyInt 5) "./recordings/" DEFAULT_FORMAT), file.
  split; [reflexivity|]. split; [exact Hbad|].
  split.
  { cbn [snd print log trace after_record]. rewrite !elem_of_app. tauto. }
  split; [reflexivity|]. split.
  - rewrite Hfile. unfold recording_name. apply path_join_ends.
    cbn [file_format DEFAULT_FORMAT].
    apply (endswith_append _ ".wav"), endswith_refl.
  - cbn [snd] in *. eexists. exact Haudio.
Qed.

Lemma example_records_wav_witness :
  example_ready Hosts.studio = true /\
  fst (main Hosts.studio)
  = Returned (Self (PyInt 5) "./recordings/" "wav", "./recordings/1700000005.wav").
Proof.
  assert (Hready : example_ready Hosts.studio = true) by (vm_compute; reflexivity).
  split; [exact Hready|].
  destruct (example_records_wav Hosts.studio Hready)
    as (recorder & recording_path & Hmain & _).
  rewrite Hmain. vm_compute in Hmain.
  injection Hmain as <- <-. reflexivity.
Defined.

(** ** The duration *)

(** The value of a finite float, as a fraction: numerator and denominator. *)
Definition numerator (s : bool) (m : positive) (e : Z) : Z :=
  (if s then -1 else 1) * Zpos m * 2 ^ Z.max e 0.
Definition denominator (e : Z) : Z := 2 ^ Z.max (- e) 0.

(** [int] of a finite float is the quotient that rounds toward zero. *)
Lemma trunc_finite_quot s m e :
  trunc_finite s m e = Z.quot (numerator s m e) (denominator e).
Proof.
  unfold trunc_finite, numerator, denominator.
  destruct (0 <=? e) eqn:He.
  - apply Z.leb_le in He.
    rewrite (Z.max_l e 0), (Z.max_r (- e) 0) by lia.
    rewrite Z.shiftl_mul_pow2 by exact He.
    change (2 ^ 0) with 1. rewrite Z.quot_1_r. destruct s; lia.
  - apply Z.leb_gt in He.
    rewrite (Z.max_r e 0), (Z.max_l (- e) 0) by lia.
    rewrite Z.shiftr_div_pow2 by lia.
    change (2 ^ 0) with 1. rewrite Z.mul_1_r.
    assert (Hpow : 0 < 2 ^ (- e)) by (apply Z.pow_pos_nonneg; lia).
    rewrite <- (Z.quot_div_nonneg (Z.pos m)) by lia.
    destruct s.
    + replace (-1 * Z.pos m) with (- Z.pos m) by lia.
      rewrite Z.quot_opp_l by lia. reflexivity.
    + rewrite Z.mul_1_l. reflexivity.
Qed.

(** The only numbers without an integral part are the float NaN and the two
    float infinities. *)
Lemma int_raises a e :
  int a = Raised e ->
  exists x, a = PyFloat x /\ (x = S754_nan \/ exists s, x = S754_infinity s).
Proof.
  destruct a as [n|[s|s| |s m e']]; try discriminate; intros _;
    eexists; (split; [reflexivity|]); eauto.
Qed.

(** C9, as stated, fails: not every duration has a number of frames.  With
    the largest finite float for a duration, construction returns the
    instance as for any other, but [duration * 44100] overflows to infinity:
    [start_record] raises [OverflowError] and asks for no frames at all. *)
Lemma duration_overflow_counterexample :
  let d := PyFloat (S754_finite false 9007199254740991 971) in
  let c := __init__ d "./recordings/" "wav" Hosts.studio in
  let s := start_record (Self d "./recordings/" "wav", snd c) in
  fst c = Returned (Self d "./recordings/" "wav") /\
  fst s = Raised (Exn OverflowError "cannot convert float infinity to integer") /\
  capture_requests (since (snd c) (snd (snd s))) = [].
Proof. vm_compute. repeat split. Qed.

(** C9, amended.  The constructor does nothing with the duration but store
    it.  For every duration - an [int] or a [float]; zero, negative,
    fractional, NaN or infinite - construction returns whenever the
    directory step passes, whether it returns or raises is the same as for
    any other duration, and the instance that comes out has the duration that
    went in.  [start_record] then asks for [int(duration * 44100)] frames:
    [duration * 44100] exactly for an [int], and for a [float] the product
    rounded toward zero.  When the product is NaN or infinite there is no
    such number: [int] raises, [ValueError] or [OverflowError], and nothing
    is asked for. *)
Theorem duration_not_validated d p f h :
  (directory_passes p h = true ->
   fst (__init__ d p f h) = Returned (Self d p (stored_format f))) /\
  (forall d',
     returns (fst (__init__ d p f h)) = returns (fst (__init__ d' p f h))) /\
  (forall me h1, __init__ d p f h = (Returned me, h1) -> duration me = d) /\
  (forall me h2,
     duration me = d ->
     match int (mul_int d SAMPLE_RATE) with
     | Returned frames =>
         capture_requests (since h2 (snd (snd (start_record (me, h2)))))
         = [(frames, 44100, 1)] /\
         match mul_int d SAMPLE_RATE with
         | PyInt n => exists D, d = PyInt D /\ frames = D * 44100
         | PyFloat (S754_finite s m e) =>
             frames = Z.quot (numerator s m e) (denominator e)
         | PyFloat _ => frames = 0
         end
     | Raised e =>
         fst (start_record (me, h2)) = Raised e /\
         capture_requests (since h2 (snd (snd (start_record (me, h2))))) = [] /\
         exn_cls e ∈ [ValueError; OverflowError]
     end).
Proof.
  split; [rewrite init_outcome; apply constructed_passes|].
  split; [intros d'; rewrite !init_outcome, !constructed_returns; reflexivity|].
  split.
  - intros me h1 Hinit.
    pose proof (init_outcome d p f h) as Ho. rewrite Hinit in Ho.
    unfold constructed in Ho. cbn [fst] in Ho.
    destruct (fst (makedirs p h)) as [[]|e];
      [injection Ho as ->; reflexivity|].
    destruct (caught e); [injection Ho as ->; reflexivity|discriminate].
  - intros me h2 Hd. rewrite start_record_calls, start_record_run, Hd.
    cbv zeta. destruct (int (mul_int d SAMPLE_RATE)) as [frames|e] eqn:Hint.
    + split; [destruct (_ && _); reflexivity|].
      destruct d as [D|x]; cbn [mul_int] in *.
      * injection Hint as <-. exists D. split; reflexivity.
      * destruct (SFmul prec emax x (float_of_int SAMPLE_RATE))
          as [s|s| |s m e]; cbn [int] in Hint; try discriminate;
          injection Hint as <-; [reflexivity|apply trunc_finite_quot].
    + split; [reflexivity|]. split; [reflexivity|].
      destruct d as [D|x]; [discriminate|]. cbn [mul_int] in Hint.
      destruct (SFmul prec emax x (float_of_int SAMPLE_RATE))
        as [s|s| |s m e']; cbn [int] in Hint; try discriminate;
        injection Hint as <-; cbn [exn_cls]; rewrite !elem_of_cons; auto.
Qed.

(** Minus one 1024th of a second: [-43.06...] frames, so [-43]. *)
Lemma duration_not_validated_witness :
  let d := PyFloat (S754_finite true 4503599627370496 (-62)) in
  directory_passes "./recordings/" Hosts.studio = true /\
  fst (__init__ d "./recordings/" "wav" Hosts.studio)
  = Returned (Self d "./recordings/" "wav") /\
  capture_requests
    (since Hosts.studio
       (snd (snd (start_record (Self d "./recordings/" "wav", Hosts.studio)))))
  = [(-43, 44100, 1)].
Proof.
  intros d.
  assert (Hpass : directory_passes "./recordings/" Hosts.studio = true)
    by (vm_compute; reflexivity).
  split; [exact Hpass|].
  destruct (duration_not_validated d "./recordings/" "wav" Hosts.studio)
    as (Hinit & _ & _ & Hrec).
  split; [rewrite (Hinit Hpass); vm_compute; reflexivity|].
  specialize (Hrec (Self d "./recordings/" "wav") Hosts.studio eq_refl).
  assert (Hint : int (mul_int d SAMPLE_RATE) = Returned (-43))
    by (vm_compute; reflexivity).
  rewrite Hint in Hrec. destruct Hrec as [Hreq _]. exact Hreq.
Defined.

(* ===================================================================== *)
(** * Further properties *)
(* ===================================================================== *)

(** ** Strings and path names *)

Lemma append_assoc (a b c : string) : (a +:+ b) +:+ c = a +:+ (b +:+ c).
Proof.
  induction a as [|x a IH]; [reflexivity|].
  change (String x ((a +:+ b) +:+ c) = String x (a +:+ (b +:+ c))).
  rewrite IH. reflexivity.
Qed.

Lemma append_nil_r (a : string) : a +:+ "" = a.
Proof.
  induction a as [|x a IH]; [reflexivity|].
  change (String x (a +:+ "") = String x a). rewrite IH. reflexivity.
Qed.

(** Strings made of the characters [P] accepts. *)
Fixpoint all_chars (P : ascii -> bool) (s : string) : bool :=
  match s with
  | EmptyString => true
  | String c s' => P c && all_chars P s'
  end.

Lemma all_chars_append P a b :
  all_chars P (a +:+ b) = all_chars P a && all_chars P b.
Proof.
  induction a as [|x a IH]; [reflexivity|].
  change (all_chars P (String x a +:+ b)) with (P x && all_chars P (a +:+ b)).
  rewrite IH. apply andb_assoc.
Qed.

Definition numeral_char (c : ascii) : bool :=
  let n := N_of_ascii c in ((48 <=? n) && (n <=? 57) || (n =? 45))%N.

(** [str(n)] is not empty and is made of digits and, possibly, a minus
    sign. *)
Lemma pretty_N_go_digits x s :
  exists ds, pretty_N_go x s = ds +:+ s /\ all_chars numeral_char ds = true /\
             ((0 < x)%N -> ds <> "").
Proof.
  revert s. induction (N.lt_wf_0 x) as [x _ IH]; intros s.
  assert (x = 0 \/ 0 < x)%N as [->|Hpos] by lia.
  - exists "". rewrite pretty_N_go_0. repeat split. lia.
  - rewrite pretty_N_go_step by exact Hpos.
    destruct (IH (x `div` 10)%N (N.div_lt x 10 Hpos eq_refl)
                 (String (pretty_N_char (x `mod` 10)) s))
      as (ds & -> & Hds & _).
    exists (ds +:+ String (pretty_N_char (x `mod` 10)) "").
    rewrite append_assoc. split; [reflexivity|]. split.
    + rewrite all_chars_append, Hds. cbn. rewrite andb_true_r.
      assert (x `mod` 10 < 10)%N as Hlt by (apply N.mod_lt; lia).
      unfold pretty_N_char. repeat case_match; reflexivity.
    + intros _. destruct ds; discriminate.
Qed.

Lemma str_of_int_digits z :
  all_chars numeral_char (str_of_int z) = true /\ str_of_int z <> "".
Proof.
  assert (Hpos : forall p, all_chars numeral_char (pretty (Npos p)) = true /\
                           pretty (Npos p) <> "").
  { intros p. unfold pretty, pretty_N. rewrite decide_False by discriminate.
    destruct (pretty_N_go_digits (N.pos p) "") as (ds & -> & Hds & Hne).
    rewrite append_nil_r. split; [exact Hds|apply Hne; lia]. }
  unfold str_of_int, pretty, pretty_Z. destruct z as [|p|p].
  - split; [reflexivity|discriminate].
  - apply Hpos.
  - destruct (Hpos p) as [Hds _]. split; [|discriminate].
    cbn. exact Hds.
Qed.

Lemma all_chars_weaken (P Q : ascii -> bool) s :
  (forall c, P c = true -> Q c = true) ->
  all_chars P s = true -> all_chars Q s = true.
Proof.
  intros HPQ. induction s as [|c s IH]; [reflexivity|]. cbn [all_chars].
  intros [Hc Hs]%andb_prop. rewrite (HPQ _ Hc), (IH Hs). reflexivity.
Qed.

(** Cutting a string at every occurrence of a character. *)
Fixpoint split_on (x : ascii) (s cur : string) : list string :=
  match s with
  | EmptyString => [cur]
  | String c s' =>
      if Ascii.eqb c x then cur :: split_on x s' ""
      else split_on x s' (cur +:+ String c "")
  end.

Lemma split_sep_on s cur : split_sep s cur = split_on "/" s cur.
Proof.
  revert cur. induction s as [|c s IH]; intros cur; [reflexivity|].
  cbn [split_sep split_on]. rewrite !IH. reflexivity.
Qed.

Lemma split_dot_on s cur : split_dot s cur = split_on "." s cur.
Proof.
  revert cur. induction s as [|c s IH]; intros cur; [reflexivity|].
  cbn [split_dot split_on]. rewrite !IH. reflexivity.
Qed.

Definition other_than (x c : ascii) : bool := negb (Ascii.eqb c x).

Lemma split_on_plain x s cur :
  all_chars (other_than x) s = true -> split_on x s cur = [cur +:+ s].
Proof.
  revert cur. induction s as [|c s IH]; intros cur.
  - intros _. cbn. rewrite append_nil_r. reflexivity.
  - cbn [all_chars split_on]. unfold other_than at 1.
    intros [Hc Hs]%andb_prop. apply negb_true_iff in Hc. rewrite Hc.
    rewrite (IH _ Hs), append_assoc. reflexivity.
Qed.

Lemma split_on_nonempty x s cur : split_on x s cur <> [].
Proof.
  revert cur. induction s as [|c s IH]; intros cur; cbn [split_on];
    [discriminate|].
  destruct (Ascii.eqb c x); [discriminate|apply IH].
Qed.

Lemma split_on_append x a b cur :
  split_on x (a +:+ b) cur
  = removelast (split_on x a cur)
    ++ split_on x b (List.last (split_on x a cur) "").
Proof.
  revert cur. induction a as [|c a IH]; intros cur; [reflexivity|].
  change (String c a +:+ b) with (String c (a +:+ b)). cbn [split_on].
  destruct (Ascii.eqb c x).
  - rewrite IH. pose proof (split_on_nonempty x a "") as Hne.
    destruct (split_on x a "") as [|y l]; [congruence|]. reflexivity.
  - apply IH.
Qed.

Lemma numeral_not_sep c : numeral_char c = true -> other_than "/" c = true.
Proof. destruct c as [[] [] [] [] [] [] [] []]; intros H; (discriminate || reflexivity). Qed.

Lemma numeral_not_dot c : numeral_char c = true -> other_than "." c = true.
Proof. destruct c as [[] [] [] [] [] [] [] []]; intros H; (discriminate || reflexivity). Qed.

(** ** The name of a recording *)

(** [<integer>.<format>] for a supported format. *)
Definition file_name (z : Z) (format : string) : string :=
  str_of_int z +:+ "." +:+ format.

Lemma supported_plain f :
  f ∈ SUPPORTED_FORMATS ->
  all_chars (other_than "/") f = true /\ all_chars (other_than ".") f = true /\
  lower f ∈ sf_formats.
Proof.
  rewrite supported_iff. intros [-> | [-> | ->]];
    (split; [reflexivity|]); (split; [reflexivity|]);
    refine (proj1 (bool_decide_eq_true _) _); vm_compute; reflexivity.
Qed.

Lemma file_name_head z f :
  exists c r, file_name z f = String c r /\ numeral_char c = true.
Proof.
  unfold file_name. destruct (str_of_int_digits z) as [Hds Hne].
  destruct (str_of_int z) as [|c r]; [congruence|].
  exists c, (r +:+ "." +:+ f). split; [reflexivity|].
  cbn [all_chars] in Hds. apply andb_prop in Hds. tauto.
Qed.

Lemma file_name_not_absolute z f : startswith (file_name z f) sep = false.
Proof.
  destruct (file_name_head z f) as (c & r & -> & Hc).
  apply numeral_not_sep in Hc. unfold other_than in Hc.
  apply negb_true_iff in Hc. unfold startswith, sep.
  change (String.prefix "/" (String c r))
    with (if ascii_dec "/" c then String.prefix "" r else false).
  destruct (ascii_dec "/" c) as [<-|_]; [discriminate Hc|reflexivity].
Qed.

Lemma file_name_not_dot z f : is_dot (file_name z f) = false.
Proof.
  destruct (file_name_head z f) as (c & r & -> & Hc).
  apply numeral_not_dot in Hc. unfold other_than in Hc.
  apply negb_true_iff in Hc. unfold is_dot. cbn. rewrite Hc. reflexivity.
Qed.

Lemma file_name_plain z f :
  all_chars (other_than "/") f = true ->
  all_chars (other_than "/") (file_name z f) = true.
Proof.
  intros Hf. unfold file_name. rewrite !all_chars_append, Hf.
  destruct (str_of_int_digits z) as [Hds _].
  rewrite (all_chars_weaken _ _ _ numeral_not_sep Hds). reflexivity.
Qed.

Lemma file_name_extension z f :
  all_chars (other_than "/") f = true ->
  all_chars (other_than ".") f = true ->
  split_dot (file_name z f) "" = [str_of_int z; f].
Proof.
  intros _ Hf. unfold file_name. rewrite split_dot_on, split_on_append.
  destruct (str_of_int_digits z) as [Hds _].
  rewrite (split_on_plain "." (str_of_int z))
    by exact (all_chars_weaken _ _ _ numeral_not_dot Hds).
  cbn [removelast List.last app].
  change (split_on "." ("." +:+ f) ("" +:+ str_of_int z))
    with (str_of_int z :: split_on "." f "").
  rewrite (split_on_plain "." f) by exact Hf. reflexivity.
Qed.

(** The separator [os.path.join] puts between a directory and a name. *)
Definition joint (p : string) : string :=
  if String.eqb p "" || endswith p sep then "" else sep.

Lemma path_join_file_name p z f :
  path_join p (file_name z f) = p +:+ joint p +:+ file_name z f.
Proof.
  unfold path_join, joint. rewrite file_name_not_absolute.
  destruct (_ || _); reflexivity.
Qed.

Lemma endswith_sep_inv p : endswith p sep = true -> exists p', p = p' +:+ sep.
Proof.
  induction p as [|c p IH]; [discriminate|].
  cbn [endswith]. intros [Heq|Hend]%orb_prop.
  - apply String.eqb_eq in Heq. exists "". exact Heq.
  - destruct (IH Hend) as [p' ->]. exists (String c p'). reflexivity.
Qed.

Lemma filter_drop_empty_last (l : list string) :
  l <> [] -> List.last l "" = "" ->
  List.filter (fun c => negb (String.eqb c "")) l
  = List.filter (fun c => negb (String.eqb c "")) (removelast l).
Proof.
  intros Hne Hlast. rewrite (app_removelast_last "" Hne) at 1.
  rewrite List.filter_app, Hlast. cbn. apply app_nil_r.
Qed.

Lemma split_on_ends_empty p :
  String.eqb p "" || endswith p sep = true ->
  List.last (split_on "/" p "") "" = "".
Proof.
  intros [Hp|Hp]%orb_prop.
  - apply String.eqb_eq in Hp. subst p. reflexivity.
  - apply endswith_sep_inv in Hp as [p' ->].
    rewrite split_on_append.
    change (split_on "/" sep ?c) with ([c] ++ [""]).
    rewrite app_assoc. apply List.last_last.
Qed.

Section Join.
Variables (p name : string).
Hypothesis name_plain : all_chars (other_than "/") name = true.
Hypothesis name_not_empty : name <> "".

Lemma split_join :
  exists l,
    split_on "/" (p +:+ joint p +:+ name) "" = l ++ [name] /\
    List.filter (fun c => negb (String.eqb c "")) l = components p.
Proof.
  unfold components. rewrite split_sep_on.
  pose proof (split_on_nonempty "/" p "") as Hne.
  unfold joint. destruct (_ || _) eqn:Hend.
  - change ("" +:+ name) with name.
    rewrite split_on_append, (split_on_plain "/" name) by exact name_plain.
    rewrite (split_on_ends_empty p Hend). change ("" +:+ name) with name.
    eexists. split; [reflexivity|].
    symmetry. apply filter_drop_empty_last; [exact Hne|].
    exact (split_on_ends_empty p Hend).
  - rewrite split_on_append.
    change (split_on "/" (sep +:+ name) ?c) with (c :: split_on "/" name "").
    rewrite (split_on_plain "/" name) by exact name_plain.
    change ("" +:+ name) with name.
    exists (split_on "/" p ""). split; [|reflexivity].
    rewrite (app_removelast_last "" Hne) at 3.
    rewrite <- app_assoc. reflexivity.
Qed.

Lemma components_join :
  components (p +:+ joint p +:+ name) = components p ++ [name].
Proof.
  destruct split_join as (l & Hsplit & Hl).
  unfold components at 1. rewrite split_sep_on, Hsplit, List.filter_app, Hl.
  cbn [List.filter]. destruct (String.eqb_spec name ""); [contradiction|].
  reflexivity.
Qed.

Lemma basename_join : basename (p +:+ joint p +:+ name) = name.
Proof.
  destruct split_join as (l & Hsplit & _).
  unfold basename. rewrite split_sep_on, Hsplit. apply List.last_last.
Qed.

Lemma base_join h :
  startswith name sep = false ->
  base h (p +:+ joint p +:+ name) = base h p.
Proof.
  intros Hrel. unfold base. destruct p as [|c r].
  - change ("" +:+ joint "" +:+ name) with name. rewrite Hrel. reflexivity.
  - unfold startswith, sep.
    change (String.prefix "/" (String c r +:+ joint (String c r) +:+ name))
      with (if ascii_dec "/" c
            then String.prefix "" (r +:+ joint (String c r) +:+ name)
            else false).
    change (String.prefix "/" (String c r))
      with (if ascii_dec "/" c then String.prefix "" r else false).
    destruct (ascii_dec "/" c); [|reflexivity].
    destruct r, (_ +:+ _); reflexivity.
Qed.

End Join.

Lemma file_name_not_empty z f : file_name z f <> "".
Proof. destruct (file_name_head z f) as (c & r & -> & _). discriminate. Qed.

Lemma extension_join p z f :
  f ∈ SUPPORTED_FORMATS -> extension (path_join p (file_name z f)) = f.
Proof.
  intros (Hsep & Hdot & _)%supported_plain.
  unfold extension.
  rewrite path_join_file_name, basename_join, file_name_extension;
    auto using file_name_plain, file_name_not_empty.
  cbn [removelast forallb List.last].
  destruct (String.eqb_spec (str_of_int z) "") as [Hz|_]; [|reflexivity].
  destruct (str_of_int_digits z) as [_ Hne]. contradiction.
Qed.

(** Where [soundfile.write] puts a recording whose directory is there. *)
Lemma sf_write_into h p z f d a r data :
  f ∈ SUPPORTED_FORMATS ->
  walk (fs h) (base h p) (components p) = Found d (Dir true) ->
  (forall w, fs h !! (d ++ [file_name z f]) <> Some (Dir w)) ->
  arrays h !! a = Some data ->
  sf_write (path_join p (file_name z f)) a r h
  = (Returned tt,
     set_fs (<[d ++ [file_name z f] := File (Some (Audio f r data))]> (fs h))
            (log (Write (path_join p (file_name z f)) a r) h)).
Proof.
  intros Hf Hwalk Hfree Hdata.
  pose proof (supported_plain f Hf) as (Hsep & _ & Hknown).
  unfold sf_write. cbv zeta.
  rewrite (extension_join p z f Hf), (supported_is_lower f Hf) in *.
  rewrite (bool_decide_eq_true_2 _ Hknown). cbn [negb].
  change (arrays (log _ h)) with (arrays h). rewrite Hdata.
  change (fs (log _ h)) with (fs h).
  change (base (log ?e h) ?x) with (base h x).
  assert (Hcomps : components (path_join p (file_name z f))
                   = components p ++ [file_name z f]).
  { rewrite path_join_file_name.
    apply components_join; auto using file_name_plain, file_name_not_empty. }
  assert (Hbase : base h (path_join p (file_name z f)) = base h p).
  { rewrite path_join_file_name.
    apply base_join; auto using file_name_plain, file_name_not_empty,
      file_name_not_absolute. }
  rewrite Hcomps, Hbase.
  rewrite removelast_last, List.last_last, Hwalk, file_name_not_dot.
  destruct (fs h !! (d ++ [file_name z f])) as [[w|c]|] eqn:Hentry;
    [destruct (Hfree w eq_refl)|reflexivity|reflexivity].
Qed.

(** X1. A recording in a directory that is there.  When the format is a
    supported one, the number of frames is defined and not negative, the host
    has an input device, and the output directory is an existing writable
    directory in which the name of the recording is not the name of a
    subdirectory, [start_record] returns; what it returns is the directory
    name, a separator if the name does not end with one (and is not empty),
    and [<seconds>.<format>]; and the only change to the tree is the entry of
    that name in that directory, which holds the recording. *)
Theorem recording_lands_in_directory me h frames signal d :
  file_format me ∈ SUPPORTED_FORMATS ->
  int (mul_int (duration me) SAMPLE_RATE) = Returned frames ->
  0 <= frames ->
  mic h = Some signal ->
  walk (fs h) (base h (output_path me)) (components (output_path me))
  = Found d (Dir true) ->
  (forall w,
     fs h !! (d ++ [file_name (whole_seconds
                                 (clock h + capture_time frames SAMPLE_RATE))
                              (file_format me)]) <> Some (Dir w)) ->
  fst (start_record (me, h))
  = Returned (output_path me +:+ joint (output_path me)
              +:+ file_name (whole_seconds
                               (clock h + capture_time frames SAMPLE_RATE))
                            (file_format me)) /\
  fs (snd (snd (start_record (me, h))))
  = <[d ++ [file_name (whole_seconds
                         (clock h + capture_time frames SAMPLE_RATE))
                      (file_format me)]
      := File (Some (Audio (file_format me) SAMPLE_RATE
                       (recorded frames signal)))]> (fs h).
Proof.
  intros Hf Hint Hpos Hmic Hwalk Hfree.
  rewrite start_record_run. cbv zeta. rewrite Hint.
  rewrite (proj2 (Z.ltb_ge frames 0) Hpos), Hmic.
  unfold recording_name.
  change (str_of_int ?z +:+ "." +:+ ?f) with (file_name z f).
  change (clock (after_capture frames signal h))
    with (clock h + capture_time frames SAMPLE_RATE).
  rewrite (sf_write_into (after_capture frames signal h) (output_path me) _
             (file_format me) d (length (arrays h)) SAMPLE_RATE
             (recorded frames signal) Hf Hwalk Hfree).
  - rewrite path_join_file_name. split; reflexivity.
  - unfold after_capture; cbn [arrays]. apply list_lookup_middle. reflexivity.
Qed.

Lemma recording_lands_in_directory_witness :
  let me := Self (PyInt 1) "/home/ana" "mp3" in
  fst (start_record (me, Hosts.studio))
  = Returned "/home/ana/1700000001.mp3" /\
  fs (snd (snd (start_record (me, Hosts.studio))))
     !! ["home"; "ana"; "1700000001.mp3"]
  = Some (File (Some (Audio "mp3" 44100 (recorded 44100 Hosts.silence)))).
Proof.
  intros me.
  assert (Hf : file_format me ∈ SUPPORTED_FORMATS).
  { refine (proj1 (bool_decide_eq_true _) _). vm_compute. reflexivity. }
  assert (Hwalk : walk (fs Hosts.studio) (base Hosts.studio (output_path me))
                       (components (output_path me))
                  = Found ["home"; "ana"] (Dir true))
    by (vm_compute; reflexivity).
  assert (Hfree : forall w,
            fs Hosts.studio
               !! (["home"; "ana"]
                   ++ [file_name (whole_seconds
                                    (clock Hosts.studio
                                     + capture_time 44100 SAMPLE_RATE))
                                 (file_format me)]) <> Some (Dir w)).
  { intros w. vm_compute. discriminate. }
  destruct (recording_lands_in_directory me Hosts.studio 44100 Hosts.silence
              ["home"; "ana"] Hf eq_refl ltac:(lia) eq_refl Hwalk Hfree)
    as [-> ->].
  split; [vm_compute; reflexivity|].
  rewrite lookup_insert_eq. reflexivity.
Defined.

(** ** What construction does to the tree *)

(** [f'] has everything [f] has, unchanged, and nothing more than new
    writable directories. *)
Definition grows (f f' : gmap (list string) node) : Prop :=
  forall k,
    match f !! k with
    | Some n => f' !! k = Some n
    | None => f' !! k = None \/ f' !! k = Some (Dir true)
    end.

Lemma grows_refl f : grows f f.
Proof. intros k. destruct (f !! k); auto. Qed.

Lemma grows_trans f1 f2 f3 : grows f1 f2 -> grows f2 f3 -> grows f1 f3.
Proof.
  intros H12 H23 k. specialize (H12 k). specialize (H23 k).
  destruct (f1 !! k) as [n|].
  - rewrite H12 in H23. exact H23.
  - destruct H12 as [H12|H12]; rewrite H12 in H23; auto.
Qed.

Lemma mkdir_grows name b cs f :
  grows f (snd (mkdir name b cs f)) /\
  (returns (fst (mkdir name b cs f)) = false -> snd (mkdir name b cs f) = f).
Proof.
  unfold mkdir.
  destruct (has_nul_in cs); [split; [apply grows_refl|reflexivity]|].
  destruct (walk f b (removelast cs)) as [d [w|?]| |];
    try (split; [apply grows_refl|reflexivity]).
  destruct (is_dot _); [split; [apply grows_refl|reflexivity]|].
  destruct (f !! (d ++ _)) eqn:Hnew; [split; [apply grows_refl|reflexivity]|].
  destruct w; [|split; [apply grows_refl|reflexivity]].
  split; [|discriminate]. cbn [snd]. intros k.
  destruct (decide (k = d ++ [List.last cs "."])) as [->|Hne].
  - rewrite Hnew, lookup_insert_eq. auto.
  - rewrite lookup_insert_ne by congruence. destruct (f !! k); auto.
Qed.

Lemma mkdir_exist_ok_grows name b cs f :
  grows f (snd (mkdir_exist_ok name b cs f)).
Proof.
  unfold mkdir_exist_ok. pose proof (mkdir_grows name b cs f) as [Hg _].
  destruct (mkdir name b cs f) as [[[]|e] f']; [exact Hg|].
  destruct (_ && _); exact Hg.
Qed.

Lemma makedirs_rev_grows name b rc f :
  grows f (snd (makedirs_rev name b rc f)).
Proof.
  induction rc as [|tail rhead IH]; cbn [makedirs_rev];
    [apply mkdir_exist_ok_grows|].
  destruct (path_exists f b (rev rhead)); [apply mkdir_exist_ok_grows|].
  destruct (makedirs_rev name b rhead f) as [[[]|e] f1]; cbn [snd] in IH.
  - destruct (String.eqb tail "."); [exact IH|].
    eapply grows_trans; [exact IH|apply mkdir_exist_ok_grows].
  - destruct (decide _); [|exact IH].
    destruct (String.eqb tail "."); [exact IH|].
    eapply grows_trans; [exact IH|apply mkdir_exist_ok_grows].
Qed.

Lemma makedirs_grows p h : grows (fs h) (fs (snd (makedirs p h))).
Proof.
  unfold makedirs.
  destruct (String.eqb p ""); [apply grows_refl|].
  pose proof (makedirs_rev_grows p (base (log (Makedirs p) h) p)
                (rev (components p)) (fs h)) as Hg.
  change (fs (log (Makedirs p) h)) with (fs h).
  destruct (makedirs_rev _ _ _ _) as [r f']. exact Hg.
Qed.

Lemma init_fs d p f h :
  fs (snd (__init__ d p f h)) = fs (snd (makedirs p h)).
Proof.
  rewrite init_run. unfold after_format, announce.
  destruct (makedirs p h) as [[[]|e] h1]; cbn [snd].
  - destruct (bool_decide _); reflexivity.
  - destruct (caught e); [|reflexivity].
    destruct (bool_decide _); reflexivity.
Qed.

(** X2. Construction never removes, replaces or changes anything that is in
    the file system: whether it returns or raises, every entry that was
    there is still there with the same content, and any entry that was not
    there is either still absent or a new, writable directory. *)
Theorem construction_only_adds_directories d p f h k :
  match fs h !! k with
  | Some n => fs (snd (__init__ d p f h)) !! k = Some n
  | None =>
      fs (snd (__init__ d p f h)) !! k = None \/
      fs (snd (__init__ d p f h)) !! k = Some (Dir true)
  end.
Proof. rewrite init_fs. apply makedirs_grows. Qed.

Lemma walk_found f b cs p n : walk f b cs = Found p n -> f !! p = Some n.
Proof.
  revert b. induction cs as [|c cs IH]; intros b; cbn [walk].
  - destruct (f !! b) eqn:E; [|discriminate]. intros [= <- <-]. exact E.
  - destruct (f !! b) as [[w|?]|]; try discriminate. apply IH.
Qed.

Lemma mkdir_raises_os_error name b cs f e f' :
  has_nul_in cs = false ->
  mkdir name b cs f = (Raised e, f') -> is_os_error e = true.
Proof.
  intros Hnul. unfold mkdir. rewrite Hnul.
  destruct (walk f b (removelast cs)) as [d [w|?]| |];
    try (intros [= <- _]; reflexivity).
  destruct (is_dot _); [intros [= <- _]; reflexivity|].
  destruct (f !! _); [intros [= <- _]; reflexivity|].
  destruct w; [discriminate|intros [= <- _]; reflexivity].
Qed.

Lemma mkdir_exist_ok_existing name b cs f :
  has_nul_in cs = false ->
  isdir f b cs = true -> mkdir_exist_ok name b cs f = (Returned tt, f).
Proof.
  intros Hnul Hdir. unfold mkdir_exist_ok.
  pose proof (mkdir_grows name b cs f) as [_ Hsame].
  destruct (mkdir name b cs f) as [[[]|e] f'] eqn:Hmk; cbn [fst snd] in Hsame.
  - exfalso. unfold mkdir in Hmk. rewrite Hnul in Hmk.
    destruct (walk f b (removelast cs)) as [d [w|?]| |] eqn:Hwalk;
      try discriminate.
    destruct (is_dot _) eqn:Hleaf; [discriminate|].
    destruct (f !! _) eqn:Hnew; [discriminate|].
    unfold isdir in Hdir.
    rewrite (walk_leaf _ _ _ _ _ Hwalk Hleaf), Hnew in Hdir. discriminate.
  - rewrite (mkdir_raises_os_error _ _ _ _ _ _ Hnul Hmk).
    unfold path_isdir. rewrite (Hsame eq_refl), Hnul, Hdir. reflexivity.
Qed.

Lemma makedirs_rev_existing name b rc f :
  has_nul_in (rev rc) = false ->
  isdir f b (rev rc) = true -> makedirs_rev name b rc f = (Returned tt, f).
Proof.
  intros Hnul Hdir. destruct rc as [|tail rhead]; cbn [makedirs_rev];
    [apply mkdir_exist_ok_existing; assumption|].
  assert (Hhead : path_exists f b (rev rhead) = true).
  { unfold path_exists. cbn [rev] in Hnul, Hdir. unfold has_nul_in in *.
    rewrite existsb_app in Hnul. apply orb_false_elim in Hnul as [-> _].
    unfold isdir in Hdir. rewrite walk_snoc in Hdir.
    unfold exists_. destruct (walk f b (rev rhead)) as [? [?|?]| |];
      (reflexivity || discriminate). }
  rewrite Hhead. apply mkdir_exist_ok_existing; assumption.
Qed.

Lemma has_nul_append a b : has_nul (a +:+ b) = has_nul a || has_nul b.
Proof.
  induction a as [|y a IH]; [reflexivity|].
  change (has_nul (String y a +:+ b))
    with (Ascii.eqb y zero || has_nul (a +:+ b)).
  rewrite IH. apply orb_assoc.
Qed.

(** A name has a NUL in it exactly when one of its components has. *)
Lemma split_on_nul x s cur :
  Ascii.eqb x zero = false ->
  existsb has_nul (split_on x s cur) = has_nul cur || has_nul s.
Proof.
  intros Hx. revert cur.
  induction s as [|c s IH]; intros cur; cbn [has_nul split_on existsb].
  - reflexivity.
  - destruct (Ascii.eqb_spec c x) as [->|_].
    + cbn [existsb]. rewrite IH, Hx. reflexivity.
    + rewrite IH, has_nul_append. cbn [has_nul].
      rewrite orb_false_r. symmetry. apply orb_assoc.
Qed.

Lemma components_nul p : has_nul_in (components p) = has_nul p.
Proof.
  unfold has_nul_in, components. rewrite split_sep_on.
  transitivity (existsb has_nul (split_on "/" p "")).
  - induction (split_on "/" p "") as [|c l IH]; [reflexivity|].
    cbn [List.filter existsb]. destruct (String.eqb_spec c "") as [->|_].
    + exact IH.
    + cbn [negb existsb]. rewrite IH. reflexivity.
  - rewrite split_on_nul by reflexivity. reflexivity.
Qed.

(** X3. [exist_ok=True]: constructing a recorder for a directory that is
    already there changes nothing in the file system and reports nothing
    about the directory; the only calls made are the one to [os.makedirs]
    and, for an unsupported format, the two lines about the format. *)
Theorem existing_directory_untouched d p f h :
  isdir (fs h) (base h p) (components p) = true ->
  p <> "" ->
  has_nul p = false ->
  __init__ d p f h
  = (Returned (Self d p (stored_format f)),
     after_format f (log (Makedirs p) h)).
Proof.
  intros Hdir Hp Hnul. rewrite init_run. unfold makedirs.
  destruct (String.eqb_spec p ""); [contradiction|].
  change (fs (log (Makedirs p) h)) with (fs h).
  change (base (log (Makedirs p) h) p) with (base h p).
  rewrite makedirs_rev_existing
    by (rewrite rev_involutive, ?components_nul; assumption).
  unfold set_fs, log; cbn [fs cwd clock mic arrays active trace].
  reflexivity.
Qed.

Lemma existing_directory_untouched_witness :
  isdir (fs Hosts.studio) (base Hosts.studio "../ana/.")
        (components "../ana/.") = true /\
  fs (snd (__init__ (PyInt 5) "../ana/." "wav" Hosts.studio))
  = fs Hosts.studio /\
  trace (snd (__init__ (PyInt 5) "../ana/." "wav" Hosts.studio))
  = [Makedirs "../ana/."].
Proof.
  assert (Hdir : isdir (fs Hosts.studio) (base Hosts.studio "../ana/.")
                       (components "../ana/.") = true)
    by (vm_compute; reflexivity).
  split; [exact Hdir|].
  rewrite (existing_directory_untouched (PyInt 5) "../ana/." "wav"
             Hosts.studio Hdir ltac:(discriminate) eq_refl).
  split; reflexivity.
Defined.

(** X4. An empty directory name.  [os.makedirs("")] fails on every host with
    a [FileNotFoundError], which [validate_path] catches: construction with
    [output_path=""] always returns the instance, always reports that error,
    and touches nothing in the file system.  The recordings of such an
    instance are named by the bare file name, that is, they go to the working
    directory. *)
Theorem empty_output_path d f h :
  __init__ d "" f h
  = (Returned (Self d "" (stored_format f)),
     after_format f (log (report (ENOENT "")) (log (Makedirs "") h))) /\
  forall now,
    recording_name (Self d "" (stored_format f)) now
    = file_name (whole_seconds now) (stored_format f).
Proof.
  split; [rewrite init_run; reflexivity|].
  intros now. unfold recording_name. cbn [output_path file_format].
  change (str_of_int ?z +:+ "." +:+ ?x) with (file_name z x).
  rewrite path_join_file_name. reflexivity.
Qed.





(** ** When [start_record] raises *)

(** X6. A capture that cannot start.  When the number of frames is negative
    (a negative duration) or the host has no input device, the call raises
    as soon as it has asked for the capture: a [ValueError] for the frames -
    checked first, device or not - and a [PortAudioError] for the device.
    Nothing was waited for, the clock was not read and no file was written:
    the host is as before but for the two calls in the trace. *)
Theorem capture_refused me h frames :
  int (mul_int (duration me) SAMPLE_RATE) = Returned frames ->
  frames < 0 \/ mic h = None ->
  start_record (me, h)
  = (Raised (if frames <? 0 then no_frames else no_device),
     (me, log (Rec frames SAMPLE_RATE 1) (log (Print "Recording...") h))).
Proof.
  intros Hint Hno. rewrite start_record_run. cbv zeta. rewrite Hint.
  destruct (frames <? 0) eqn:Hneg; [reflexivity|].
  destruct Hno as [Hlt|Hmic]; [apply Z.ltb_ge in Hneg; lia|].
  rewrite Hmic. reflexivity.
Qed.

Lemma capture_refused_witness :
  let me := Self (PyInt (-3)) "./recordings/" "wav" in
  int (mul_int (duration me) SAMPLE_RATE) = Returned (-132300) /\
  fst (start_record (me, Hosts.mute)) = Raised no_frames /\
  clock (snd (snd (start_record (me, Hosts.mute)))) = clock Hosts.mute.
Proof.
  intros me. split; [reflexivity|].
  assert (Hneg : -132300 < 0 \/ mic Hosts.mute = None) by (left; lia).
  rewrite (capture_refused me Hosts.mute (-132300) eq_refl Hneg).
  split; reflexivity.
Defined.

(** X7. A duration without a number of frames.  When [duration * 44100] is
    a float NaN or infinity - the duration is NaN or infinite, or so large
    that the product overflows - [int] raises, [ValueError] for NaN and
    [OverflowError] for infinity, and the call ends there: it has printed its
    first line and has not asked the device for anything. *)
Theorem frames_undefined me h e :
  int (mul_int (duration me) SAMPLE_RATE) = Raised e ->
  start_record (me, h) = (Raised e, (me, log (Print "Recording...") h)) /\
  exn_cls e ∈ [ValueError; OverflowError] /\
  exists x, duration me = PyFloat x.
Proof.
  intros Hint. split; [rewrite start_record_run; cbv zeta; rewrite Hint; reflexivity|].
  destruct (duration me) as [D|x]; [discriminate|]. split; [|eauto].
  cbn [mul_int] in Hint.
  destruct (SFmul prec emax x (float_of_int SAMPLE_RATE)) as [s|s| |s m e'];
    cbn [int] in Hint; try discriminate; injection Hint as <-; cbn [exn_cls];
    rewrite !elem_of_cons; auto.
Qed.

(** The largest finite float, about 1.8e308 seconds. *)
Lemma frames_undefined_witness :
  let me := Self (PyFloat (S754_finite false 9007199254740991 971))
                 "./recordings/" "wav" in
  int (mul_int (duration me) SAMPLE_RATE)
  = Raised (Exn OverflowError "cannot convert float infinity to integer") /\
  trace (snd (snd (start_record (me, Hosts.studio))))
  = [Print "Recording..."].
Proof.
  intros me.
  assert (Hint : int (mul_int (duration me) SAMPLE_RATE)
                 = Raised (Exn OverflowError
                             "cannot convert float infinity to integer"))
    by (vm_compute; reflexivity).
  split; [exact Hint|].
  destruct (frames_undefined me Hosts.studio _ Hint) as [-> _]. reflexivity.
Defined.

Lemma sf_write_raises_class file a r h e h' :
  sf_write file a r h = (Raised e, h') ->
  exn_cls e ∈ [TypeError; LibsndfileError].
Proof.
  unfold sf_write; cbv zeta. rewrite !elem_of_cons.
  destruct (negb _); [intros [= <- _]; auto|].
  destruct (arrays _ !! a); [|intros [= <- _]; auto].
  destruct (walk _ _ _) as [d [w|?]| |]; try (intros [= <- _]; auto).
  destruct (is_dot _); [intros [= <- _]; auto|].
  destruct (fs _ !! _) as [[?|?]|]; try (intros [= <- _]; auto); try discriminate.
  destruct w; [discriminate|intros [= <- _]; auto].
Qed.

(** X8. A write that fails costs the whole capture.  The file is only
    created after the capture: when the capture can start but the file
    cannot be created, the call allocates the array, waits for all the
    frames - the clock has advanced by the length of the capture - and only
    then raises what [soundfile.write] raises.  The file system is as it was
    and the recording is lost. *)
Theorem failed_write_after_capture me h frames :
  int (mul_int (duration me) SAMPLE_RATE) = Returned frames ->
  0 <= frames ->
  is_Some (mic h) ->
  can_create h (recording_name me (clock h + capture_time frames SAMPLE_RATE))
  = false ->
  exists e,
    fst (start_record (me, h)) = Raised e /\
    exn_cls e ∈ [TypeError; LibsndfileError] /\
    fs (snd (snd (start_record (me, h)))) = fs h /\
    clock (snd (snd (start_record (me, h))))
    = clock h + capture_time frames SAMPLE_RATE /\
    since h (snd (snd (start_record (me, h))))
    = [Print "Recording..."; Rec frames SAMPLE_RATE 1; Wait; Time;
       Write (recording_name me (clock h + capture_time frames SAMPLE_RATE))
             (length (arrays h)) SAMPLE_RATE].
Proof.
  intros Hint Hpos [signal Hmic] Hcant.
  pose proof (start_record_returns me h) as Hret.
  pose proof (start_record_calls me h) as Hcalls.
  unfold ready in Hret. rewrite Hint, Hcant, andb_false_r in Hret.
  rewrite Hint, (proj2 (Z.leb_le 0 frames) Hpos), Hmic in Hcalls.
  rewrite bool_decide_eq_true_2 in Hcalls by eauto. cbn [andb] in Hcalls.
  rewrite Hcalls. clear Hcalls.
  rewrite start_record_run in *. cbv zeta in *. rewrite Hint in *.
  rewrite (proj2 (Z.ltb_ge frames 0) Hpos), Hmic in *.
  destruct (sf_write _ _ _ _) as [[[]|e] h3] eqn:Hw; [discriminate|].
  exists e. split; [reflexivity|].
  split; [exact (sf_write_raises_class _ _ _ _ _ _ Hw)|].
  apply sf_write_failure in Hw as ->. repeat split.
Qed.

Lemma failed_write_after_capture_witness :
  let me := Self (PyInt 2) "./recordings/" "wav" in
  can_create Hosts.studio
    (recording_name me (clock Hosts.studio + capture_time 88200 SAMPLE_RATE))
  = false /\
  fst (start_record (me, Hosts.studio))
  = Raised (open_error "./recordings/1700000002.wav") /\
  clock (snd (snd (start_record (me, Hosts.studio))))
  = clock Hosts.studio + 2000000000.
Proof.
  intros me.
  assert (Hcant : can_create Hosts.studio
            (recording_name me
               (clock Hosts.studio + capture_time 88200 SAMPLE_RATE)) = false)
    by (vm_compute; reflexivity).
  split; [exact Hcant|].
  assert (Hpos : 0 <= 88200) by lia.
  destruct (failed_write_after_capture me Hosts.studio 88200 eq_refl
              Hpos (mk_is_Some _ _ eq_refl) Hcant)
    as (e & He & _ & _ & -> & _).
  split; [|reflexivity].
  rewrite He. vm_compute in He. injection He as <-. reflexivity.
Defined.

Lemma can_create_needs_directory h p z f :
  f ∈ SUPPORTED_FORMATS ->
  can_create h (path_join p (file_name z f)) = true ->
  isdir (fs h) (base h p) (components p) = true.
Proof.
  intros (Hsep & _ & _)%supported_plain. unfold can_create, isdir.
  rewrite path_join_file_name.
  rewrite components_join, base_join
    by auto using file_name_plain, file_name_not_empty, file_name_not_absolute.
  rewrite removelast_last.
  destruct (walk _ _ _) as [d [w|?]| |]; rewrite ?andb_false_r; auto.
Qed.

(** X9. No directory, no recording.  If at the time of the call the output
    directory does not lead to a directory - it was never created, or it is a
    regular file - a call to [start_record] cannot return, whatever the
    duration and the device: every attempt ends in an exception. *)
Theorem missing_directory_never_records me h :
  file_format me ∈ SUPPORTED_FORMATS ->
  isdir (fs h) (base h (output_path me)) (components (output_path me))
  = false ->
  returns (fst (start_record (me, h))) = false.
Proof.
  intros Hf Hdir. rewrite start_record_returns. unfold ready.
  destruct (int _) as [frames|e]; [|reflexivity].
  destruct (can_create h _) eqn:Hcan; [|apply andb_false_r].
  unfold recording_name in Hcan.
  change (str_of_int ?z +:+ "." +:+ ?f) with (file_name z f) in Hcan.
  apply can_create_needs_directory in Hcan; [congruence|exact Hf].
Qed.

Lemma missing_directory_never_records_witness :
  let me := Self (PyInt 1) "./recordings/" "wav" in
  let h := snd (__init__ (PyInt 1) "./recordings/" "wav" Hosts.kiosk) in
  fst (__init__ (PyInt 1) "./recordings/" "wav" Hosts.kiosk) = Returned me /\
  isdir (fs h) (base h (output_path me)) (components (output_path me))
  = false /\
  returns (fst (start_record (me, h))) = false.
Proof.
  intros me h.
  assert (Hf : file_format me ∈ SUPPORTED_FORMATS).
  { refine (proj1 (bool_decide_eq_true _) _). vm_compute. reflexivity. }
  assert (Hdir : isdir (fs h) (base h (output_path me))
                       (components (output_path me)) = false)
    by (vm_compute; reflexivity).
  split; [vm_compute; reflexivity|]. split; [exact Hdir|].
  exact (missing_directory_never_records me h Hf Hdir).
Defined.

(** ** Edge cases of a recording *)

(** X10. No frames.  A duration of zero, or any duration so short that
    [int(duration * 44100)] is zero, makes a recording all the same: on a
    host that is ready the call returns without any time passing on the
    clock, and the file it has written holds no frame at all. *)
Theorem zero_frames_recording me h :
  int (mul_int (duration me) SAMPLE_RATE) = Returned 0 ->
  ready me h = true ->
  exists file a,
    fst (start_record (me, h)) = Returned file /\
    clock (snd (snd (start_record (me, h)))) = clock h /\
    audio_at (snd (snd (start_record (me, h)))) file = Some a /\
    au_data a = [].
Proof.
  intros Hint (file & s' & Hrun)%ready_returned. rewrite Hrun.
  destruct (start_record_success _ _ _ _ Hrun)
    as (frames & signal & k & Hframes & _ & _ & _ & _ & -> & Haudio).
  rewrite Hint in Hframes. injection Hframes as <-.
  exists file, (Audio (lower (extension file)) SAMPLE_RATE (recorded 0 signal)).
  split; [reflexivity|]. split; [|split; [exact Haudio|reflexivity]].
  cbn [snd after_record clock].
  change (capture_time 0 SAMPLE_RATE) with 0. lia.
Qed.

(** A duration of 2^-16 s, some fifteen microseconds. *)
Lemma zero_frames_recording_witness :
  let me := Self (PyFloat (S754_finite false 4503599627370496 (-68)))
                 "/home/ana" "flac" in
  int (mul_int (duration me) SAMPLE_RATE) = Returned 0 /\
  ready me Hosts.studio = true /\
  fst (start_record (me, Hosts.studio))
  = Returned "/home/ana/1700000000.flac".
Proof.
  intros me.
  assert (Hint : int (mul_int (duration me) SAMPLE_RATE) = Returned 0)
    by (vm_compute; reflexivity).
  assert (Hready : ready me Hosts.studio = true) by (vm_compute; reflexivity).
  split; [exact Hint|]. split; [exact Hready|].
  destruct (zero_frames_recording me Hosts.studio Hint Hready)
    as (file & a & Hret & _).
  rewrite Hret. vm_compute in Hret. injection Hret as <-. reflexivity.
Defined.

Lemma length_append (a b : string) :
  String.length (a +:+ b) = (String.length a + String.length b)%nat.
Proof.
  induction a as [|x a IH]; [reflexivity|].
  change (S (String.length (a +:+ b)) = S (String.length a + String.length b)).
  rewrite IH. reflexivity.
Qed.

Lemma append_cancel_l (a b c : string) : a +:+ b = a +:+ c -> b = c.
Proof.
  induction a as [|x a IH]; [auto|].
  change (String x (a +:+ b) = String x (a +:+ c) -> b = c).
  intros [= H]. exact (IH H).
Qed.

Lemma append_cancel_r (a b c : string) : a +:+ c = b +:+ c -> a = b.
Proof.
  revert b. induction a as [|x a IH]; intros [|y b] H.
  - reflexivity.
  - apply (f_equal String.length) in H.
    change ("" +:+ c) with c in H. rewrite length_append in H.
    cbn [String.length] in H. lia.
  - apply (f_equal String.length) in H.
    change ("" +:+ c) with c in H. rewrite length_append in H.
    cbn [String.length] in H. lia.
  - change (String x (a +:+ c) = String y (b +:+ c)) in H.
    injection H as -> H. rewrite (IH _ H). reflexivity.
Qed.

(** X11. Names and seconds.  Two recordings of one instance get the same
    path exactly when the clock readings they are named after fall in the
    same second - so a second is the shortest interval at which an instance
    can keep its recordings apart. *)
Theorem same_name_same_second me t1 t2 :
  recording_name me t1 = recording_name me t2
  <-> whole_seconds t1 = whole_seconds t2.
Proof.
  split; [|unfold recording_name; intros ->; reflexivity].
  unfold recording_name.
  change (str_of_int ?z +:+ "." +:+ ?f) with (file_name z f).
  rewrite !path_join_file_name.
  intros H%append_cancel_l%append_cancel_l. unfold file_name in H.
  apply append_cancel_r in H. unfold str_of_int in H.
  exact (inj pretty _ _ H).
Qed.

(** The whole result of a call that finds its directory. *)
Lemma start_record_into me h frames signal d :
  file_format me ∈ SUPPORTED_FORMATS ->
  int (mul_int (duration me) SAMPLE_RATE) = Returned frames ->
  0 <= frames ->
  mic h = Some signal ->
  walk (fs h) (base h (output_path me)) (components (output_path me))
  = Found d (Dir true) ->
  (forall w,
     fs h !! (d ++ [file_name (whole_seconds
                                 (clock h + capture_time frames SAMPLE_RATE))
                              (file_format me)]) <> Some (Dir w)) ->
  start_record (me, h)
  = (Returned (recording_name me (clock h + capture_time frames SAMPLE_RATE)),
     (me,
      set_fs
        (<[d ++ [file_name (whole_seconds
                              (clock h + capture_time frames SAMPLE_RATE))
                           (file_format me)]
           := File (Some (Audio (file_format me) SAMPLE_RATE
                            (recorded frames signal)))]> (fs h))
        (log (Write (recording_name me
                       (clock h + capture_time frames SAMPLE_RATE))
                    (length (arrays h)) SAMPLE_RATE)
             (after_capture frames signal h)))).
Proof.
  intros Hf Hint Hpos Hmic Hwalk Hfree.
  rewrite start_record_run. cbv zeta. rewrite Hint.
  rewrite (proj2 (Z.ltb_ge frames 0) Hpos), Hmic.
  change (clock (after_capture frames signal h))
    with (clock h + capture_time frames SAMPLE_RATE).
  unfold recording_name.
  change (str_of_int ?z +:+ "." +:+ ?f) with (file_name z f).
  rewrite (sf_write_into (after_capture frames signal h) (output_path me) _
             (file_format me) d (length (arrays h)) SAMPLE_RATE
             (recorded frames signal) Hf Hwalk Hfree); [reflexivity|].
  unfold after_capture; cbn [arrays]. apply list_lookup_middle. reflexivity.
Qed.

(** X12. The second recording of a second replaces the first.  Take a call
    that has put its recording into the output directory, and a second call
    on the same instance that finishes within the same second - as happens
    with durations under a second.  The second call returns the very same
    path, no entry is added to the directory, and what the file holds
    afterwards is the second recording: the first is gone. *)
Theorem same_second_overwrites me h h' frames signal signal' d :
  file_format me ∈ SUPPORTED_FORMATS ->
  int (mul_int (duration me) SAMPLE_RATE) = Returned frames ->
  0 <= frames ->
  mic h = Some signal ->
  walk (fs h) (base h (output_path me)) (components (output_path me))
  = Found d (Dir true) ->
  (forall w,
     fs h !! (d ++ [file_name (whole_seconds
                                 (clock h + capture_time frames SAMPLE_RATE))
                              (file_format me)]) <> Some (Dir w)) ->
  fs h' = fs (snd (snd (start_record (me, h)))) ->
  cwd h' = cwd h ->
  mic h' = Some signal' ->
  whole_seconds (clock h' + capture_time frames SAMPLE_RATE)
  = whole_seconds (clock h + capture_time frames SAMPLE_RATE) ->
  fst (start_record (me, h')) = fst (start_record (me, h)) /\
  fs (snd (snd (start_record (me, h'))))
  = <[d ++ [file_name (whole_seconds
                         (clock h + capture_time frames SAMPLE_RATE))
                      (file_format me)]
      := File (Some (Audio (file_format me) SAMPLE_RATE
                       (recorded frames signal')))]> (fs h).
Proof.
  intros Hf Hint Hpos Hmic Hwalk Hfree Hfs Hcwd Hmic' Hsec.
  rewrite (start_record_into me h frames signal d Hf Hint Hpos Hmic Hwalk Hfree)
    in *.
  cbn [fst snd set_fs fs] in Hfs |- *.
  assert (Hwalk' : walk (fs h') (base h' (output_path me))
                        (components (output_path me)) = Found d (Dir true)).
  { unfold base. rewrite Hcwd, Hfs. fold (base h (output_path me)).
    apply walk_insert; assumption. }
  assert (Hfree' : forall w,
            fs h' !! (d ++ [file_name
                              (whole_seconds
                                 (clock h' + capture_time frames SAMPLE_RATE))
                              (file_format me)]) <> Some (Dir w)).
  { intros w. rewrite Hsec, Hfs, lookup_insert_eq. discriminate. }
  rewrite (start_record_into me h' frames signal' d Hf Hint Hpos Hmic' Hwalk'
             Hfree').
  cbn [fst snd set_fs fs]. unfold recording_name. rewrite Hsec, Hfs.
  split; [reflexivity|]. apply insert_insert_eq.
Qed.

(** A quarter of a second, twice in a row, starting a quarter past the
    second; the microphone gives 0 the first time and 7 the second. *)
Lemma same_second_overwrites_witness :
  let me := Self (PyFloat (S754_finite false 4503599627370496 (-54)))
                 "/home/ana" "wav" in
  let h := Hosts.studio in
  let h1 := snd (snd (start_record (me, h))) in
  let h' := Host (fs h1) (cwd h1) (clock h1) (Some (fun _ _ => 7))
                 (arrays h1) (active h1) (trace h1) in
  fst (start_record (me, h)) = Returned "/home/ana/1700000000.wav" /\
  fst (start_record (me, h')) = Returned "/home/ana/1700000000.wav" /\
  fs (snd (snd (start_record (me, h')))) !! ["home"; "ana"; "1700000000.wav"]
  = Some (File (Some (Audio "wav" 44100 (recorded 11025 (fun _ _ => 7))))).
Proof.
  intros me h h1 h'.
  assert (Hf : file_format me ∈ SUPPORTED_FORMATS).
  { refine (proj1 (bool_decide_eq_true _) _). vm_compute. reflexivity. }
  assert (Hint : int (mul_int (duration me) SAMPLE_RATE) = Returned 11025)
    by (vm_compute; reflexivity).
  assert (Hpos : 0 <= 11025) by lia.
  assert (Hwalk : walk (fs h) (base h (output_path me))
                       (components (output_path me))
                  = Found ["home"; "ana"] (Dir true))
    by (vm_compute; reflexivity).
  assert (Hfree : forall w,
            fs h !! (["home"; "ana"]
                     ++ [file_name (whole_seconds
                                      (clock h + capture_time 11025 SAMPLE_RATE))
                                   (file_format me)]) <> Some (Dir w)).
  { intros w. vm_compute. discriminate. }
  assert (Hsec : whole_seconds (clock h' + capture_time 11025 SAMPLE_RATE)
                 = whole_seconds (clock h + capture_time 11025 SAMPLE_RATE))
    by (vm_compute; reflexivity).
  assert (Hfirst : fst (start_record (me, h))
                   = Returned "/home/ana/1700000000.wav")
    by (vm_compute; reflexivity).
  destruct (same_second_overwrites me h h' 11025 Hosts.silence
              (fun _ _ => 7) ["home"; "ana"] Hf Hint Hpos eq_refl Hwalk Hfree
              eq_refl eq_refl eq_refl Hsec) as [-> ->].
  split; [exact Hfirst|]. split; [exact Hfirst|].
  rewrite lookup_insert_eq. reflexivity.
Defined.

(** ** More on construction *)

(** X13. [validate_format] settles the format in one go.  Run on any
    instance at all, it leaves an instance whose format is supported and
    whose other attributes are untouched; run again on what it left, it
    changes nothing and prints nothing - the default it falls back on is
    itself a supported format. *)
Theorem validate_format_settles me h :
  file_format (fst (snd (validate_format (me, h)))) ∈ SUPPORTED_FORMATS /\
  duration (fst (snd (validate_format (me, h)))) = duration me /\
  output_path (fst (snd (validate_format (me, h)))) = output_path me /\
  validate_format (snd (validate_format (me, h)))
  = (Returned tt, snd (validate_format (me, h))).
Proof.
  rewrite validate_format_run.
  assert (Hdefault : DEFAULT_FORMAT ∈ SUPPORTED_FORMATS).
  { apply supported_iff. left. reflexivity. }
  destruct (bool_decide (file_format me ∈ SUPPORTED_FORMATS)) eqn:Hok;
    cbn [fst snd duration output_path file_format].
  - apply bool_decide_eq_true_1 in Hok.
    split; [exact Hok|]. split; [reflexivity|]. split; [reflexivity|].
    rewrite validate_format_run, bool_decide_eq_true_2 by exact Hok.
    reflexivity.
  - split; [exact Hdefault|]. split; [reflexivity|]. split; [reflexivity|].
    rewrite validate_format_run. cbn [file_format].
    rewrite bool_decide_eq_true_2 by exact Hdefault. reflexivity.
Qed.

Lemma makedirs_frame p h :
  exists f, snd (makedirs p h) = set_fs f (log (Makedirs p) h).
Proof.
  unfold makedirs. exists (fs (snd (makedirs p h))). unfold makedirs.
  destruct (String.eqb p ""); [reflexivity|].
  destruct (makedirs_rev _ _ _ _) as [r f]. reflexivity.
Qed.

(** X14. What the constructor reaches for.  Constructing an instance makes
    one call to [os.makedirs], with the directory name as given, and after
    that only prints - at most three lines.  It does not read the clock, does
    not touch the input device or any array, does not change the working
    directory, and writes no file. *)
Theorem construction_calls d p f h :
  exists lines,
    since h (snd (__init__ d p f h)) = Makedirs p :: map Print lines /\
    (length lines <= 3)%nat /\
    clock (snd (__init__ d p f h)) = clock h /\
    mic (snd (__init__ d p f h)) = mic h /\
    arrays (snd (__init__ d p f h)) = arrays h /\
    active (snd (__init__ d p f h)) = active h /\
    cwd (snd (__init__ d p f h)) = cwd h.
Proof.
  rewrite init_run. destruct (makedirs_frame p h) as [f' Hframe].
  destruct (makedirs p h) as [[[]|e] h1]; cbn [snd] in Hframe; subst h1.
  - unfold after_format, announce. destruct (bool_decide _).
    + exists []. split; [apply since_app; reflexivity|]. cbn. repeat split; lia.
    + eexists [_; _]. split; [apply since_app|cbn; repeat split; lia].
      cbn [fst snd log set_fs trace fs cwd clock mic arrays active].
      rewrite <- !app_assoc. reflexivity.
  - destruct (caught e).
    + unfold after_format, announce, report. destruct (bool_decide _).
      * eexists [_]. split; [apply since_app|cbn; repeat split; lia].
        cbn [fst snd log set_fs trace fs cwd clock mic arrays active].
        rewrite <- !app_assoc. reflexivity.
      * eexists [_; _; _]. split; [apply since_app|cbn; repeat split; lia].
        cbn [fst snd log set_fs trace fs cwd clock mic arrays active].
        rewrite <- !app_assoc. reflexivity.
    + exists []. split; [apply since_app; reflexivity|]. cbn. repeat split; lia.
Qed.

(** ** The script, from scratch *)

Lemma walk_here f b :
  f !! b = Some (Dir true) -> walk f b ["."] = Found b (Dir true).
Proof.
  intros Hb. cbn [walk]. rewrite Hb.
  change (move b ".") with b. rewrite Hb. reflexivity.
Qed.

Lemma snoc_ne (l : list string) x : l <> l ++ [x].
Proof.
  intros H. apply (f_equal length) in H. rewrite length_app in H.
  cbn [length] in H. lia.
Qed.

(** [os.makedirs("./recordings/")] where the working directory is writable
    and has nothing of that name. *)
Lemma makedirs_recordings h :
  fs h !! cwd h = Some (Dir true) ->
  fs h !! (cwd h ++ ["recordings"]) = None ->
  makedirs "./recordings/" h
  = (Returned tt,
     set_fs (<[cwd h ++ ["recordings"] := Dir true]> (fs h))
            (log (Makedirs "./recordings/") h)).
Proof.
  intros Hcwd Hnew. unfold makedirs.
  change (String.eqb "./recordings/" "") with false. cbv zeta iota.
  change (rev (components "./recordings/")) with ["recordings"; "."].
  change (base (log (Makedirs "./recordings/") h) "./recordings/")
    with (cwd h).
  change (fs (log (Makedirs "./recordings/") h)) with (fs h).
  cbn [makedirs_rev].
  change (rev ["."]) with ["."].
  change (rev ["recordings"; "."]) with ["."; "recordings"].
  unfold path_exists, exists_.
  change (has_nul_in ["."]) with false. rewrite (walk_here _ _ Hcwd).
  cbn [negb andb].
  unfold mkdir_exist_ok, mkdir.
  change (has_nul_in ["."; "recordings"]) with false. cbv iota.
  change (removelast ["."; "recordings"]) with ["."].
  change (List.last ["."; "recordings"] ".") with "recordings".
  rewrite (walk_here _ _ Hcwd).
  change (is_dot "recordings") with false. cbv iota.
  rewrite Hnew. reflexivity.
Qed.

Lemma wavf_stored : stored_format "wavf" = "wav".
Proof. vm_compute. reflexivity. Qed.

Lemma wavf_announced h : after_format "wavf" h = announce h.
Proof.
  unfold after_format.
  replace (bool_decide (lower "wavf" ∈ SUPPORTED_FORMATS)) with false
    by (vm_compute; reflexivity).
  reflexivity.
Qed.

(** X15. The script on a fresh machine.  Run in a writable working directory
    that has no entry called [recordings], on a host with an input device,
    the script goes through: it makes the directory, falls back from
    ["wavf"] to ["wav"], records 5 x 44100 frames, and five seconds later
    writes them to [./recordings/<seconds>.wav].  The directory and the file
    are the only changes to the file system, and the calls it has made are
    exactly the nine listed, in this order. *)
Theorem script_from_scratch h signal :
  fs h !! cwd h = Some (Dir true) ->
  (forall k, fs h !! (cwd h ++ "recordings" :: k) = None) ->
  mic h = Some signal ->
  fst (main h)
  = Returned (Self (PyInt 5) "./recordings/" "wav",
              "./recordings/"
              +:+ file_name (whole_seconds (clock h + 5000000000)) "wav") /\
  fs (snd (main h))
  = <[cwd h ++ ["recordings";
                file_name (whole_seconds (clock h + 5000000000)) "wav"]
      := File (Some (Audio "wav" 44100 (recorded 220500 signal)))]>
      (<[cwd h ++ ["recordings"] := Dir true]> (fs h)) /\
  clock (snd (main h)) = clock h + 5000000000 /\
  since h (snd (main h))
  = [Makedirs "./recordings/";
     Print "Audio file format is not supported. Accepted formats: WAV, MP3, and FLAC.";
     Print "Using default value: WAV";
     Print "Recording...";
     Rec 220500 44100 1; Wait; Time;
     Write ("./recordings/"
            +:+ file_name (whole_seconds (clock h + 5000000000)) "wav")
           (length (arrays h)) 44100;
     Print ("Recording saved at: " +:+ "./recordings/"
            +:+ file_name (whole_seconds (clock h + 5000000000)) "wav")].
Proof.
  intros Hcwd Hnone Hmic.
  pose (h1 := announce
                (set_fs (<[cwd h ++ ["recordings"] := Dir true]> (fs h))
                        (log (Makedirs "./recordings/") h))).
  assert (Hinit : __init__ (PyInt 5) "./recordings/" "wavf" h
                  = (Returned (Self (PyInt 5) "./recordings/" "wav"), h1)).
  { rewrite init_run, (makedirs_recordings h Hcwd (Hnone [])).
    rewrite wavf_stored, wavf_announced. reflexivity. }
  assert (Hf : "wav" ∈ SUPPORTED_FORMATS).
  { apply supported_iff. left. reflexivity. }
  assert (Hpos : 0 <= 220500) by lia.
  assert (Hwalk : walk (fs h1) (base h1 "./recordings/")
                       (components "./recordings/")
                  = Found (cwd h ++ ["recordings"]) (Dir true)).
  { change (components "./recordings/") with ["."; "recordings"].
    change (base h1 "./recordings/") with (cwd h).
    change (fs h1) with (<[cwd h ++ ["recordings"] := Dir true]> (fs h)).
    change ["."; "recordings"] with (["."] ++ ["recordings"]).
    rewrite walk_snoc, walk_here.
    - change (move (cwd h) "recordings") with (cwd h ++ ["recordings"]).
      rewrite lookup_insert_eq. reflexivity.
    - rewrite lookup_insert_ne by (symmetry; apply snoc_ne). exact Hcwd. }
  assert (Hfree : forall w,
            fs h1 !! ((cwd h ++ ["recordings"])
                      ++ [file_name
                            (whole_seconds
                               (clock h1 + capture_time 220500 SAMPLE_RATE))
                            "wav"]) <> Some (Dir w)).
  { intros w.
    change (fs h1) with (<[cwd h ++ ["recordings"] := Dir true]> (fs h)).
    rewrite lookup_insert_ne by apply snoc_ne.
    rewrite <- app_assoc. cbn [app]. rewrite Hnone. discriminate. }
  pose proof (start_record_into (Self (PyInt 5) "./recordings/" "wav") h1
                220500 signal (cwd h ++ ["recordings"]) Hf eq_refl Hpos Hmic
                Hwalk Hfree) as Hrec.
  change (clock h1 + capture_time 220500 SAMPLE_RATE)
    with (clock h + capture_time 220500 SAMPLE_RATE) in Hrec.
  replace (capture_time 220500 SAMPLE_RATE) with 5000000000 in Hrec
    by (vm_compute; reflexivity).
  unfold recording_name in Hrec. cbn [output_path file_format] in Hrec.
  change (str_of_int ?z +:+ "." +:+ "wav") with (file_name z "wav") in Hrec.
  rewrite path_join_file_name in Hrec.
  change ("./recordings/" +:+ joint "./recordings/" +:+ ?n)
    with ("./recordings/" +:+ n) in Hrec.
  unfold main. rewrite Hinit, Hrec. unfold print. cbv zeta iota beta.
  cbn [fst snd]. split; [reflexivity|]. split.
  { cbn [log set_fs fs cwd]. rewrite <- app_assoc. reflexivity. }
  split.
  { cbn [log set_fs clock after_capture].
    replace (capture_time 220500 SAMPLE_RATE) with 5000000000
      by (vm_compute; reflexivity).
    reflexivity. }
  apply since_app.
  cbn [log set_fs trace after_capture h1 announce].
  unfold h1, announce, log, set_fs; cbn [trace arrays].
  rewrite <- !app_assoc. reflexivity.
Qed.

Lemma script_from_scratch_witness :
  fs Hosts.studio !! cwd Hosts.studio = Some (Dir true) /\
  fst (main Hosts.studio)
  = Returned (Self (PyInt 5) "./recordings/" "wav",
              "./recordings/1700000005.wav") /\
  clock (snd (main Hosts.studio)) = 1700000005250000000.
Proof.
  assert (Hcwd : fs Hosts.studio !! cwd Hosts.studio = Some (Dir true))
    by (vm_compute; reflexivity).
  assert (Hnone : forall k,
            fs Hosts.studio !! (cwd Hosts.studio ++ "recordings" :: k) = None).
  { intros k. change (fs Hosts.studio) with Hosts.home.
    change (cwd Hosts.studio ++ "recordings" :: k)
      with ("home" :: "ana" :: "recordings" :: k).
    unfold Hosts.home. rewrite !lookup_insert_ne by discriminate.
    apply lookup_singleton_ne. discriminate. }
  split; [exact Hcwd|].
  destruct (script_from_scratch Hosts.studio Hosts.silence Hcwd Hnone eq_refl)
    as (-> & _ & -> & _).
  split; vm_compute; reflexivity.
Defined.
